(** * ETL_Ncy: table extraction, imputation, PostgreSQL loading and the
      pipeline that sequences them

    A shallow embedding of
      - etl_package/extract/web_scraper.py
      - etl_package/transform/missing_values.py (impute_missing_values)
      - etl_package/transform/encoding.py (one_hot_encode),
        validation.py (validate_data_types),
        feature_engineering.py (create_date_features)
      - etl_package/load/to_postgres.py (PostgreSQLLoader)
      - etl_package/pipelines/etl_pipeline.py (ETLPipeline)
    followed by the properties of the design document, each stated on these
    definitions. *)

From Stdlib Require Import QArith.
From stdpp Require Import base list strings gmap pretty.
Close Scope Q_scope.

(** ** Python exceptions and results *)

(** The exception classes the code raises or catches. [RequestException]
    is requests'; [SQLAlchemyError] is SQLAlchemy's; the others are
    builtins. Every class derives from Exception. *)
Inductive exception :=
  | RequestException (msg : string)
  | SQLAlchemyError (msg : string)
  | ValueError (msg : string)
  | TypeError (msg : string)
  | KeyError (key : string)
  | AttributeError (msg : string)
  | OtherException (msg : string).

(** str(e), as the handlers interpolate it into their log records. *)
Definition str_exception (e : exception) : string :=
  match e with
  | RequestException m | SQLAlchemyError m | ValueError m | TypeError m
  | AttributeError m | OtherException m => m
  | KeyError k => "'" +:+ k +:+ "'"
  end.

Definition is_RequestException (e : exception) : bool :=
  match e with RequestException _ => true | _ => false end.

Definition is_SQLAlchemyError (e : exception) : bool :=
  match e with SQLAlchemyError _ => true | _ => false end.

(** A call either returns a value or raises. *)
Inductive result (A : Type) :=
  | Ok (a : A)
  | Raise (e : exception).
Arguments Ok {A} a.
Arguments Raise {A} e.

Global Instance result_ret : MRet result := λ A a, Ok a.

Global Instance result_bind : MBind result := λ A B k r,
  match r with
  | Ok a => k a
  | Raise e => Raise e
  end.

(** ** The part of pandas the code relies on *)

Module pd.

(** One cell of a frame. [PyNone] and [NaN] are the two missing values
    ([isnull] is true of them and of nothing else); an empty string is a
    present value. Numbers carry a rational payload: the code never
    computes on them itself (mean, median and mode are pandas'). *)
Inductive cell :=
  | PyNone
  | NaN
  | Str (s : string)
  | Num (q : Q)
  | Bool (b : bool).

Definition isnull (c : cell) : bool :=
  match c with
  | PyNone | NaN => true
  | _ => false
  end.

Inductive dtype := object | float64 | int64 | bool_ | datetime64 | category.

Definition is_numeric_dtype (d : dtype) : bool :=
  match d with
  | float64 | int64 | bool_ => true
  | _ => false
  end.

Record Series := { s_dtype : dtype; s_values : list cell }.

(** A frame with a default RangeIndex: column labels (duplicates are
    allowed, as in pandas), one dtype per column, and the records in row
    order. *)
Record DataFrame := {
  columns : list string;
  dtypes : list dtype;
  values : list (list cell)
}.

Definition shape (df : DataFrame) : nat * nat :=
  (length (values df), length (columns df)).

(** df.empty: some axis has length 0. *)
Definition empty (df : DataFrame) : bool :=
  (length (values df) =? 0) || (length (columns df) =? 0).

(** pd.DataFrame() *)
Definition DataFrame_ : DataFrame :=
  {| columns := []; dtypes := []; values := [] |}.

(** pd.DataFrame(data, columns=columns) for a list of lists of str: the
    records are as wide as the widest of them (shorter ones are filled
    with None), every column has dtype object, and pandas raises
    ValueError when that width is not the number of labels. *)
Definition DataFrame_from_records (data : list (list string))
    (cols : list string) : result DataFrame :=
  match data with
  | [] => Ok {| columns := cols;
                dtypes := replicate (length cols) object;
                values := [] |}
  | _ =>
    let width := max_list (length <$> data) in
    if decide (width = length cols) then
      Ok {| columns := cols;
            dtypes := replicate (length cols) object;
            values := (λ r, (Str <$> r) ++ replicate (width - length r) PyNone)
                        <$> data |}
    else Raise (ValueError (pretty (length cols) +:+ " columns passed, passed data had "
                            +:+ pretty width +:+ " columns"))
  end.

(** df.copy(): frames are values here, a copy is the frame itself. *)
Definition copy (df : DataFrame) : DataFrame := df.

(** The positions at which a label occurs among the columns. *)
Fixpoint positions_from (i : nat) (label : string) (cols : list string) : list nat :=
  match cols with
  | [] => []
  | c :: cols' =>
    if decide (c = label) then i :: positions_from (S i) label cols'
    else positions_from (S i) label cols'
  end.

Definition get_loc (df : DataFrame) (label : string) : list nat :=
  positions_from 0 label (columns df).

Definition column_at (df : DataFrame) (j : nat) : Series :=
  {| s_dtype := default object (dtypes df !! j);
     s_values := (λ r, default PyNone (r !! j)) <$> values df |}.

(** df[label]: a Series when the label occurs once, a DataFrame of the
    matching columns when it is duplicated, KeyError when absent. *)
Inductive selection :=
  | OneColumn (s : Series)
  | SeveralColumns (ss : list Series).

Definition getitem (df : DataFrame) (label : string) : result selection :=
  match get_loc df label with
  | [] => Raise (KeyError label)
  | [j] => Ok (OneColumn (column_at df j))
  | js => Ok (SeveralColumns (column_at df <$> js))
  end.

(** The message of NDFrame.__bool__. *)
Definition ambiguous : string :=
  "The truth value of a Series is ambiguous. Use a.empty, a.bool(), a.item(), a.any() or a.all().".

(** [if sel.isnull().sum() > 0:]. On a Series the sum is a number and
    the test is decided; on a DataFrame the sum is a Series, [> 0] a
    Series of booleans, and taking its truth value raises. *)
Definition has_nulls (sel : selection) : result bool :=
  match sel with
  | OneColumn s => Ok (bool_decide (0 < length (filter (λ c, isnull c = true) (s_values s))))
  | SeveralColumns _ => Raise (ValueError ambiguous)
  end.

(** df[label] = s. Every column carrying the label is overwritten; a new
    label is appended as the last column. The code only assigns a Series
    computed from a column of the same frame, so [s] carries the frame's
    index; a position it lacks reads NaN. *)
Definition setitem (df : DataFrame) (label : string) (s : Series) : DataFrame :=
  let at_row (i : nat) : cell := default NaN (s_values s !! i) in
  match get_loc df label with
  | [] =>
    {| columns := columns df ++ [label];
       dtypes := dtypes df ++ [s_dtype s];
       values := imap (λ i r, r ++ [at_row i]) (values df) |}
  | js =>
    {| columns := columns df;
       dtypes := foldr (λ j ds, <[j := s_dtype s]> ds) (dtypes df) js;
       values := imap (λ i r, foldr (λ j r', <[j := at_row i]> r') r js) (values df) |}
  end.

(** Series.fillna(value): every missing cell becomes [value]; fillna(None)
    raises. A numeric column filled with a str becomes an object column. *)
Definition fillna (s : Series) (value : cell) : result Series :=
  match value with
  | PyNone => Raise (ValueError "Must specify a fill 'value' or 'method'.")
  | _ =>
    Ok {| s_dtype := match value with Str _ => object | _ => s_dtype s end;
          s_values := (λ c, if isnull c then value else c) <$> s_values s |}
  end.

(** Series.fillna(method='ffill'): a missing cell takes the last present
    value before it; leading missing cells stay. *)
Fixpoint ffill_from (last : option cell) (l : list cell) : list cell :=
  match l with
  | [] => []
  | c :: l' =>
    if isnull c then default c last :: ffill_from last l'
    else c :: ffill_from (Some c) l'
  end.

Definition ffill (s : Series) : Series :=
  {| s_dtype := s_dtype s; s_values := ffill_from None (s_values s) |}.

(** Series.fillna(method='bfill'): the same from the end. *)
Definition bfill (s : Series) : Series :=
  {| s_dtype := s_dtype s; s_values := reverse (ffill_from None (reverse (s_values s))) |}.

(** Every record has one cell per column label. *)
Definition rectangular (df : DataFrame) : Prop :=
  Forall (λ r, length r = length (columns df)) (values df).

(** No cell is missing. *)
Definition no_missing (df : DataFrame) : Prop :=
  Forall (Forall (λ c, isnull c = false)) (values df).

(** The elements of [l] whose position carries [true] in [mask]. *)
Fixpoint select_mask {A} (mask : list bool) (l : list A) : list A :=
  match mask, l with
  | b :: mask', x :: l' => if b then x :: select_mask mask' l' else select_mask mask' l'
  | _, _ => []
  end.

(** df.drop(label, axis=1): every column carrying the label goes;
    KeyError when there is none. *)
Definition drop (df : DataFrame) (label : string) : result DataFrame :=
  match get_loc df label with
  | [] => Raise (KeyError ("['" +:+ label +:+ "'] not found in axis"))
  | _ =>
    let keep := (λ c, bool_decide (c ≠ label)) <$> columns df in
    Ok {| columns := select_mask keep (columns df);
          dtypes := select_mask keep (dtypes df);
          values := select_mask keep <$> values df |}
  end.

(** pd.concat([a, b], axis=1): the columns of [a] then those of [b], the
    rows joined on the index; a frame with fewer rows reads NaN below its
    last one. *)
Definition concat_columns (a b : DataFrame) : DataFrame :=
  let row_of (df : DataFrame) (i : nat) : list cell :=
    default (replicate (length (columns df)) NaN) (values df !! i) in
  {| columns := columns a ++ columns b;
     dtypes := dtypes a ++ dtypes b;
     values := (λ i, row_of a i ++ row_of b i)
                 <$> seq 0 (length (values a) `max` length (values b)) |}.

(** df.select_dtypes(include=['object', 'category']).columns.tolist() *)
Definition object_columns (df : DataFrame) : list string :=
  select_mask ((λ d, match d with object | category => true | _ => false end)
                 <$> dtypes df) (columns df).

Definition str_dtype (d : dtype) : string :=
  match d with
  | object => "object"
  | float64 => "float64"
  | int64 => "int64"
  | bool_ => "bool"
  | datetime64 => "datetime64[ns]"
  | category => "category"
  end.

(** A Python type given as an expected column type (validation.py). *)
Inductive pytype := py_int | py_float | py_str | py_bool | py_object.

(** What the code asks of pandas and cannot be computed here: the
    floating-point statistics, the order of the modes, the dummy columns,
    datetime parsing and the comparison of a dtype with a Python type. *)
Class Library := {
  (** Series.mean(): NaN when no value is present *)
  mean : Series → cell;
  (** Series.median() *)
  median : Series → cell;
  (** Series.mode(): the most frequent present values, sorted *)
  mode : Series → list cell;
  (** pd.get_dummies(df[column], prefix=column, drop_first=drop_first) *)
  get_dummies : selection → string → bool → result DataFrame;
  (** pd.to_datetime(df[date_column]) *)
  to_datetime : selection → result Series;
  (** the .dt accessors *)
  dt_year : Series → Series;
  dt_month : Series → Series;
  dt_day : Series → Series;
  dt_dayofweek : Series → Series;
  dt_quarter : Series → Series;
  (** pd.api.types.is_dtype_equal(actual_type, expected_type) *)
  is_dtype_equal : dtype → pytype → bool
}.

End pd.

(** ** etl_package/extract/web_scraper.py *)

Module web_scraper.

(** The parsed page as [manual_table_scraping] reads it through
    BeautifulSoup: [soup.find_all('table')] is the list of table elements
    in document order, [table.find_all('tr')] the rows of one of them, and
    a row is given by [cell.get_text(strip=True)] of each of its td and th
    elements. A cell's text may be the empty string. *)
Definition tr := list string.
Definition table := list tr.
Definition BeautifulSoup := list table.

(** Lines 72-77: the rows that have at least one cell. *)
Definition rows_with_cells (t : table) : list (list string) :=
  filter (λ cells, cells ≠ []) t.

(** Line 85: all(isinstance(h, str) and len(h) > 0 for h in
    potential_headers); every cell text is a str. *)
Definition usable_headers (potential_headers : list string) : bool :=
  forallb (λ h, bool_decide (0 < String.length h)) potential_headers.

(** Line 89: the positional names, one per cell of the first row. *)
Definition positional_headers (n : nat) : list string :=
  (λ j, "Colonne_" +:+ pretty (j + 1)) <$> seq 0 n.

(** Lines 96-99. [row.extend] mutates a list that nothing else reads
    afterwards (the header list is never one of the data rows that get
    extended), so the row is modelled as a value. *)
Definition normalize_row (max_cols : nat) (row : list string) : list string :=
  if decide (length row < max_cols) then
    row ++ replicate (max_cols - length row) ""
  else if decide (max_cols < length row) then take max_cols row
  else row.

(** Lines 72-106, the body of the loop for one table: the frame that is
    appended to candidate_dfs, or None when the table is passed over. *)
Definition table_frame (t : table) : result (option pd.DataFrame) :=
  let data := rows_with_cells t in
  if decide (data = [] ∨ length data < 2) then mret None
  else
    match data with
    | [] => Raise (OtherException "list index out of range")
    | potential_headers :: rest =>
      let '(headers, data_rows) :=
        if usable_headers potential_headers then (potential_headers, rest)
        else (positional_headers (length potential_headers), data) in
      let max_cols := length headers in
      let normalized_rows := normalize_row max_cols <$> data_rows in
      df ← pd.DataFrame_from_records normalized_rows headers;
      mret (if pd.empty df then None else Some df)
    end.

(** Lines 69-106: the loop over the tables, threading candidate_dfs. *)
Fixpoint tables_loop (tables : list table) (candidate_dfs : list pd.DataFrame)
    : result (list pd.DataFrame) :=
  match tables with
  | [] => mret candidate_dfs
  | t :: tables' =>
    r ← table_frame t;
    tables_loop tables'
      (match r with Some df => candidate_dfs ++ [df] | None => candidate_dfs end)
  end.

(** Line 110, the key: t.shape[0] * t.shape[1]. *)
Definition area (t : pd.DataFrame) : nat :=
  (pd.shape t).1 * (pd.shape t).2.

(** Python's max(iterable, key=key) on a non-empty iterable: the running
    best is replaced only by an element with a strictly larger key. *)
Definition py_max {A} (key : A → nat) (first : A) (rest : list A) : A :=
  foldl (λ best x, if decide (key best < key x) then x else best) first rest.

(** Lines 59-118. Any exception in the body is caught and None returned. *)
Definition manual_table_scraping (soup : BeautifulSoup) : option pd.DataFrame :=
  let body : result (option pd.DataFrame) :=
    let tables := soup in
    if decide (tables = []) then mret None
    else
      candidate_dfs ← tables_loop tables [];
      match candidate_dfs with
      | first :: rest => mret (Some (py_max area first rest))
      | [] => mret None
      end in
  match body with
  | Ok r => r
  | Raise _ => None
  end.

(** The network and the parser, as [scrape_cacao_ratings] uses them:
    [requests_get url] stands for requests.get(url, headers=..., timeout=30)
    followed by raise_for_status() and gives response.content;
    [html_parser content] stands for BeautifulSoup(content, 'html.parser'). *)
Record Web := {
  requests_get : string → result string;
  html_parser : string → result BeautifulSoup
}.

Definition url : string :=
  "https://content.codecademy.com/courses/beautifulsoup/cacao/index.html".

(** Lines 19-47. Both handlers return an empty frame. *)
Definition scrape_cacao_ratings (web : Web) : pd.DataFrame :=
  let body : result pd.DataFrame :=
    content ← requests_get web url;
    soup ← html_parser web content;
    match manual_table_scraping soup with
    | Some df => if negb (pd.empty df) then mret df else mret pd.DataFrame_
    | None => mret pd.DataFrame_
    end in
  match body with
  | Ok df => df
  | Raise e =>
    if is_RequestException e then pd.DataFrame_
    else pd.DataFrame_
  end.

(** *** Auxiliary definitions for the statements below *)

(** The frame built at line 102 from a first row and the rows after it. *)
Definition frame_of (row0 : list string) (rest : list (list string)) : pd.DataFrame :=
  if usable_headers row0 then
    {| pd.columns := row0;
       pd.dtypes := replicate (length row0) pd.object;
       pd.values := (λ r, pd.Str <$> normalize_row (length row0) r) <$> rest |}
  else
    {| pd.columns := positional_headers (length row0);
       pd.dtypes := replicate (length row0) pd.object;
       pd.values := (λ r, pd.Str <$> normalize_row (length row0) r) <$> row0 :: rest |}.

(** The frame a table contributes to candidate_dfs, if any. *)
Definition candidate (t : table) : option pd.DataFrame :=
  match table_frame t with
  | Ok r => r
  | Raise _ => None
  end.

End web_scraper.

(** ** etl_package/transform/missing_values.py *)

Module missing_values.

(** A strategy, Union[str, float]: a name or a constant to fill with. *)
Inductive col_strategy :=
  | Named (name : string)
  | Constant (q : Q).

Definition named (c : col_strategy) (name : string) : bool :=
  match c with
  | Named n => bool_decide (n = name)
  | Constant _ => false
  end.

Section impute.
Context `{pd.Library}.

(** Line 71 and line 81: df[column].mode()[0] if not
    df[column].mode().empty else None. *)
Definition first_mode (s : pd.Series) : pd.cell :=
  match pd.mode s with
  | m :: _ => m
  | [] => pd.PyNone
  end.

(** Lines 63-84, the body of the loop for one column. *)
Definition impute_column (df df_imputed : pd.DataFrame)
    (strategy : gmap string col_strategy) (default_strategy : col_strategy)
    (column : string) : result pd.DataFrame :=
  sel ← pd.getitem df column;
  pd.has_nulls sel ≫= λ nulls : bool,
  if nulls then
    match sel with
    | pd.SeveralColumns _ => Raise (ValueError pd.ambiguous)
    | pd.OneColumn s =>
      let col_strategy := default default_strategy (strategy !! column) in
      let fill (impute_value : pd.cell) : result pd.DataFrame :=
        filled ← pd.fillna s impute_value;
        mret (pd.setitem df_imputed column filled) in
      if named col_strategy "mean" && pd.is_numeric_dtype (pd.s_dtype s) then
        fill (pd.mean s)
      else if named col_strategy "median" && pd.is_numeric_dtype (pd.s_dtype s) then
        fill (pd.median s)
      else if named col_strategy "mode" then fill (first_mode s)
      else if named col_strategy "ffill" then
        mret (pd.setitem df_imputed column (pd.ffill s))
      else if named col_strategy "bfill" then
        mret (pd.setitem df_imputed column (pd.bfill s))
      else
        match col_strategy with
        | Constant q => fill (pd.Num q)
        | Named _ => fill (first_mode s)
        end
    end
  else mret df_imputed.

(** Lines 62-84: for column in df.columns. *)
Fixpoint impute_loop (df : pd.DataFrame) (strategy : gmap string col_strategy)
    (default_strategy : col_strategy) (cols : list string)
    (df_imputed : pd.DataFrame) : result pd.DataFrame :=
  match cols with
  | [] => mret df_imputed
  | column :: cols' =>
    df_imputed' ← impute_column df df_imputed strategy default_strategy column;
    impute_loop df strategy default_strategy cols' df_imputed'
  end.

(** MissingValuesHandler.impute_missing_values(df, strategy=None,
    default_strategy='mean'), lines 57-87. *)
Definition impute_missing_values (df : pd.DataFrame)
    (strategy : option (gmap string col_strategy))
    (default_strategy : col_strategy) : result pd.DataFrame :=
  let df_imputed := pd.copy df in
  let strategy : gmap string col_strategy := default ∅ strategy in
  impute_loop df strategy default_strategy (pd.columns df) df_imputed.

End impute.

End missing_values.

(** ** etl_package/transform/encoding.py *)

Module encoding.
Section one_hot.
Context `{pd.Library}.

(** Lines 39-43, the body of the loop for one column. *)
Definition encode_column (df df_encoded : pd.DataFrame) (drop_first : bool)
    (column : string) : result pd.DataFrame :=
  if decide (column ∈ pd.columns df) then
    sel ← pd.getitem df column;
    dummies ← pd.get_dummies sel column drop_first;
    pd.drop (pd.concat_columns df_encoded dummies) column
  else mret df_encoded.

Fixpoint encode_loop (df : pd.DataFrame) (drop_first : bool)
    (cols : list string) (df_encoded : pd.DataFrame) : result pd.DataFrame :=
  match cols with
  | [] => mret df_encoded
  | column :: cols' =>
    df_encoded' ← encode_column df df_encoded drop_first column;
    encode_loop df drop_first cols' df_encoded'
  end.

(** DataEncoder.one_hot_encode(df, columns=None, drop_first=False),
    lines 33-45. *)
Definition one_hot_encode (df : pd.DataFrame) (columns : option (list string))
    (drop_first : bool) : result pd.DataFrame :=
  let df_encoded := pd.copy df in
  let columns := default (pd.object_columns df) columns in
  encode_loop df drop_first columns df_encoded.

End one_hot.
End encoding.

(** ** etl_package/transform/validation.py *)

Module validation.

Definition str_pytype (t : pd.pytype) : string :=
  match t with
  | pd.py_int => "<class 'int'>"
  | pd.py_float => "<class 'float'>"
  | pd.py_str => "<class 'str'>"
  | pd.py_bool => "<class 'bool'>"
  | pd.py_object => "<class 'object'>"
  end.

(** The dict that validate_data_types builds; 'details' keeps the order
    in which the keys were first set. *)
Record validation_results := {
  valid : bool;
  errors : list string;
  details : list (string * string)
}.

(** validation_results['details'][column] = v *)
Fixpoint set_detail (column v : string) (d : list (string * string))
    : list (string * string) :=
  match d with
  | [] => [(column, v)]
  | (k, w) :: d' =>
    if decide (k = column) then (k, v) :: d' else (k, w) :: set_detail column v d'
  end.

Section validate.
Context `{pd.Library}.

(** Lines 38-51, the body of the loop for one expected column. *)
Definition validate_column (df : pd.DataFrame) (r : validation_results)
    (column : string) (expected_type : pd.pytype) : result validation_results :=
  if decide (column ∉ pd.columns df) then
    mret {| valid := false;
            errors := errors r ++ ["Colonne manquante: " +:+ column];
            details := set_detail column "MANQUANTE" (details r) |}
  else
    sel ← pd.getitem df column;
    match sel with
    | pd.SeveralColumns _ =>
      Raise (AttributeError "'DataFrame' object has no attribute 'dtype'")
    | pd.OneColumn s =>
      let actual_type := pd.s_dtype s in
      if negb (pd.is_dtype_equal actual_type expected_type) then
        mret {| valid := false;
                errors := errors r ++
                  ["Type incorrect pour " +:+ column +:+ ": attendu "
                   +:+ str_pytype expected_type +:+ ", obtenu "
                   +:+ pd.str_dtype actual_type];
                details := set_detail column
                  ("INVALID: " +:+ pd.str_dtype actual_type) (details r) |}
      else
        mret {| valid := valid r;
                errors := errors r;
                details := set_detail column
                  ("VALID: " +:+ pd.str_dtype actual_type) (details r) |}
    end.

Fixpoint validate_loop (df : pd.DataFrame) (items : list (string * pd.pytype))
    (r : validation_results) : result validation_results :=
  match items with
  | [] => mret r
  | (column, expected_type) :: items' =>
    r' ← validate_column df r column expected_type;
    validate_loop df items' r'
  end.

(** DataValidator.validate_data_types(df, expected_types), lines 31-54;
    [expected_types] is the dict's items in order. *)
Definition validate_data_types (df : pd.DataFrame)
    (expected_types : list (string * pd.pytype)) : result validation_results :=
  validate_loop df expected_types {| valid := true; errors := []; details := [] |}.

End validate.
End validation.

(** ** etl_package/transform/feature_engineering.py *)

Module feature_engineering.
Section date_features.
Context `{pd.Library}.

(** df_engineered[date_column].dt: only a Series has the accessor. *)
Definition dt (sel : pd.selection) : result pd.Series :=
  match sel with
  | pd.OneColumn s => mret s
  | pd.SeveralColumns _ =>
    Raise (AttributeError "'DataFrame' object has no attribute 'dt'")
  end.

(** .isin([5, 6]).astype(int) *)
Definition isin_5_6 (s : pd.Series) : pd.Series :=
  {| pd.s_dtype := pd.int64;
     pd.s_values :=
       (λ c, match c with
             | pd.Num q => if Qeq_bool q 5 || Qeq_bool q 6 then pd.Num 1 else pd.Num 0
             | _ => pd.Num 0
             end) <$> pd.s_values s |}.

(** One derived column:
    df_engineered[date_column + suffix] = f(df_engineered[date_column].dt) *)
Definition add_feature (df_engineered : pd.DataFrame) (date_column suffix : string)
    (f : pd.Series → pd.Series) : result pd.DataFrame :=
  sel ← pd.getitem df_engineered date_column;
  s ← dt sel;
  mret (pd.setitem df_engineered (date_column +:+ suffix) (f s)).

(** FeatureEngineer.create_date_features(df, date_column), lines 32-48. *)
Definition create_date_features (df : pd.DataFrame) (date_column : string)
    : result pd.DataFrame :=
  let df_engineered := pd.copy df in
  if decide (date_column ∈ pd.columns df) then
    sel ← pd.getitem df date_column;
    parsed ← pd.to_datetime sel;
    let df_engineered := pd.setitem df_engineered date_column parsed in
    df_engineered ← add_feature df_engineered date_column "_year" pd.dt_year;
    df_engineered ← add_feature df_engineered date_column "_month" pd.dt_month;
    df_engineered ← add_feature df_engineered date_column "_day" pd.dt_day;
    df_engineered ← add_feature df_engineered date_column "_dayofweek" pd.dt_dayofweek;
    df_engineered ← add_feature df_engineered date_column "_quarter" pd.dt_quarter;
    add_feature df_engineered date_column "_is_weekend" (isin_5_6 ∘ pd.dt_dayofweek)
  else mret df_engineered.

End date_features.
End feature_engineering.

(** ** etl_package/config/config.py *)

Module config.

(** The class attributes of Config, read from the environment when the
    module is imported. *)
Record Config := {
  DB_HOST : string;
  DB_PORT : string;
  DB_NAME : string;
  DB_USER : string;
  DB_PASSWORD : string
}.

(** The values of os.getenv's second arguments. *)
Definition defaults : Config :=
  {| DB_HOST := "localhost"; DB_PORT := "5432"; DB_NAME := "etl_database";
     DB_USER := "postgres"; DB_PASSWORD := "postgres" |}.

Definition database_url (self : Config) : string :=
  "postgresql://" +:+ DB_USER self +:+ ":" +:+ DB_PASSWORD self +:+ "@"
  +:+ DB_HOST self +:+ ":" +:+ DB_PORT self +:+ "/" +:+ DB_NAME self.

End config.

(** ** etl_package/load/to_postgres.py *)

Module to_postgres.

(** The database server as the loader meets it: whether a connection can
    be opened, whether the statements of a write go through, the tables
    it holds, and the calls of DataFrame.to_sql made so far (table name
    and if_exists), oldest first. *)
Record Postgres := {
  accepts_connections : bool;
  accepts_writes : bool;
  tables : gmap string pd.DataFrame;
  to_sql_calls : list (string * string)
}.

Record PostgreSQLLoader := {
  connection_string : string;
  engine : option string
}.

(** _connect, lines 29-39: create_engine, then SELECT 1 on a connection;
    SQLAlchemyError is logged and raised again. *)
Definition _connect (self : PostgreSQLLoader) (pg : Postgres)
    : result unit * PostgreSQLLoader :=
  let self := {| connection_string := connection_string self;
                 engine := Some (connection_string self) |} in
  if accepts_connections pg then (Ok (), self)
  else (Raise (SQLAlchemyError "could not connect to server"), self).

(** __init__, lines 18-27: [connection_string or config.database_url]. *)
Definition __init__ (cfg : config.Config) (connection_string : option string)
    (pg : Postgres) : result PostgreSQLLoader :=
  let cs := match connection_string with
            | Some s => if decide (s = "") then config.database_url cfg else s
            | None => config.database_url cfg
            end in
  match _connect {| connection_string := cs; engine := None |} pg with
  | (Ok _, self) => Ok self
  | (Raise e, _) => Raise e
  end.

(** df.to_sql(table_name, engine, if_exists=if_exists, index=False, ...):
    pandas checks if_exists, then the table is created, replaced or
    extended on the server. *)
Definition to_sql (df : pd.DataFrame) (table_name if_exists : string)
    (pg : Postgres) : result unit * Postgres :=
  let called (tbls : gmap string pd.DataFrame) : Postgres :=
    {| accepts_connections := accepts_connections pg;
       accepts_writes := accepts_writes pg;
       tables := tbls;
       to_sql_calls := to_sql_calls pg ++ [(table_name, if_exists)] |} in
  if decide (if_exists ∉ ["fail"; "replace"; "append"]) then
    (Raise (ValueError ("'" +:+ if_exists +:+ "' is not valid for if_exists")),
     called (tables pg))
  else if negb (accepts_connections pg && accepts_writes pg) then
    (Raise (SQLAlchemyError "statement failed"), called (tables pg))
  else
    match tables pg !! table_name with
    | None => (Ok (), called (<[table_name := df]> (tables pg)))
    | Some old =>
      if decide (if_exists = "fail") then
        (Raise (ValueError ("Table '" +:+ table_name +:+ "' already exists.")),
         called (tables pg))
      else if decide (if_exists = "replace") then
        (Ok (), called (<[table_name := df]> (tables pg)))
      else if decide (pd.columns old = pd.columns df) then
        (Ok (), called (<[table_name :=
                   {| pd.columns := pd.columns old;
                      pd.dtypes := pd.dtypes old;
                      pd.values := pd.values old ++ pd.values df |}]> (tables pg)))
      else (Raise (SQLAlchemyError "column does not exist"), called (tables pg))
    end.

(** load_dataframe(self, df, table_name, if_exists="replace"),
    lines 41-73. Only SQLAlchemyError is caught. *)
Definition load_dataframe (self : PostgreSQLLoader) (df : pd.DataFrame)
    (table_name if_exists : string) (pg : Postgres)
    : result bool * PostgreSQLLoader * Postgres :=
  if pd.empty df then (Ok false, self, pg)
  else
    let '(connected, self) :=
      match engine self with
      | None => _connect self pg
      | Some _ => (Ok (), self)
      end in
    match connected with
    | Raise e =>
      if is_SQLAlchemyError e then (Ok false, self, pg) else (Raise e, self, pg)
    | Ok _ =>
      match to_sql df table_name if_exists pg with
      | (Ok _, pg') => (Ok true, self, pg')
      | (Raise e, pg') =>
        if is_SQLAlchemyError e then (Ok false, self, pg') else (Raise e, self, pg')
      end
    end.

End to_postgres.

(** ** etl_package/pipelines/etl_pipeline.py *)

Module etl_pipeline.

(** *** Log records of the module's logger *)

Inductive level := INFO | WARNING | ERROR.

(** A record's message. The validation warning interpolates a list of
    strings; the list is kept as data instead of its repr. *)
Inductive message :=
  | Text (s : string)
  | ValidationProblems (errors : list string).

Definition log_record : Type := level * message.

Definition info (s : string) : log_record := (INFO, Text s).
Definition warning (s : string) : log_record := (WARNING, Text s).
Definition error (s : string) : log_record := (ERROR, Text s).

(** *** Transformation steps *)

(** The 'params' dict of a step, typed by the annotations of the four
    functions it may be unpacked into: each of their keywords is absent or
    present with a value of the annotated type; [other_keywords] are the
    remaining keys of the dict. *)
Record params := {
  strategy : option (option (gmap string missing_values.col_strategy));
  default_strategy : option missing_values.col_strategy;
  columns : option (option (list string));
  drop_first : option bool;
  expected_types : option (list (string * pd.pytype));
  date_column : option string;
  other_keywords : list string
}.

(** {} *)
Definition no_params : params :=
  {| strategy := None; default_strategy := None; columns := None;
     drop_first := None; expected_types := None; date_column := None;
     other_keywords := [] |}.

(** The keys of the dict. *)
Definition keywords (p : params) : list string :=
  (if strategy p is Some _ then ["strategy"] else [])
  ++ (if default_strategy p is Some _ then ["default_strategy"] else [])
  ++ (if columns p is Some _ then ["columns"] else [])
  ++ (if drop_first p is Some _ then ["drop_first"] else [])
  ++ (if expected_types p is Some _ then ["expected_types"] else [])
  ++ (if date_column p is Some _ then ["date_column"] else [])
  ++ other_keywords p.

(** f(df, **params): a key that is not a parameter of f is a TypeError
    (so is the key 'df', given twice then). *)
Definition check_keywords (f : string) (accepted : list string) (p : params)
    : result unit :=
  match filter (λ k, k ∉ accepted) (keywords p) with
  | [] => mret ()
  | k :: _ =>
    Raise (TypeError (f +:+ "() got an unexpected keyword argument '" +:+ k +:+ "'"))
  end.

Definition missing_argument (f arg : string) : exception :=
  TypeError (f +:+ "() missing 1 required positional argument: '" +:+ arg +:+ "'").

(** One element of the transformations list: a dict read with
    transformation['function'] and transformation.get('params', {}). *)
Record transformation := {
  function : option string;
  step_params : option params
}.

Definition step (f : string) (p : params) : transformation :=
  {| function := Some f; step_params := Some p |}.

(** *** The pipeline object and the world around it *)

(** The attributes of an ETLPipeline ([self.config] is stored by __init__
    and never read). *)
Record ETLPipeline := {
  raw_data : option pd.DataFrame;
  transformed_data : option pd.DataFrame;
  loader : option to_postgres.PostgreSQLLoader
}.

(** ETLPipeline(), lines 25-30. *)
Definition ETLPipeline_ : ETLPipeline :=
  {| raw_data := None; transformed_data := None; loader := None |}.

(** What a method call can change: the object and the database. *)
Record state := {
  self : ETLPipeline;
  postgres : to_postgres.Postgres
}.

(** A method call: its outcome, the state it leaves, the records it logs. *)
Definition call (A : Type) : Type := result A * state * list log_record.

Definition set_raw_data (st : state) (df : pd.DataFrame) : state :=
  {| self := {| raw_data := Some df;
                transformed_data := transformed_data (self st);
                loader := loader (self st) |};
     postgres := postgres st |}.

Definition set_transformed_data (st : state) (df : pd.DataFrame) : state :=
  {| self := {| raw_data := raw_data (self st);
                transformed_data := Some df;
                loader := loader (self st) |};
     postgres := postgres st |}.

Definition set_loader (st : state) (l : to_postgres.PostgreSQLLoader)
    (pg : to_postgres.Postgres) : state :=
  {| self := {| raw_data := raw_data (self st);
                transformed_data := transformed_data (self st);
                loader := Some l |};
     postgres := pg |}.

Section methods.
Context `{pd.Library} (web : web_scraper.Web) (cfg : config.Config).

(** *** extract, lines 32-44 *)
Definition extract (source : string) (st : state) : call pd.DataFrame :=
  let started := [info ("Début de la phase d'extraction - Source: " +:+ source)] in
  if decide (source = "web_scraping") then
    let df := web_scraper.scrape_cacao_ratings web in
    (Ok df, set_raw_data st df,
     started ++ [info ("Extraction terminée: " +:+ pretty (pd.shape df).1
                       +:+ " lignes, " +:+ pretty (pd.shape df).2 +:+ " colonnes")])
  else
    let e := ValueError ("Source non supportée: " +:+ source) in
    (Raise e, st,
     started ++ [error ("Erreur lors de l'extraction: " +:+ str_exception e)]).

(** *** transform, lines 46-82 *)

(** Lines 54-76, the body of the loop for one step: the new value of
    self.transformed_data, or the exception raised. *)
Definition apply_transformation (transformed_data : pd.DataFrame)
    (t : transformation) : result pd.DataFrame * list log_record :=
  match function t with
  | None => (Raise (KeyError "function"), [])
  | Some func_name =>
    let params := default no_params (step_params t) in
    let applying := [info ("Application de la transformation: " +:+ func_name)] in
    if decide (func_name = "handle_missing_values") then
      (check_keywords "MissingValuesHandler.impute_missing_values"
         ["strategy"; "default_strategy"] params ≫= λ _,
       missing_values.impute_missing_values transformed_data
         (default None (strategy params))
         (default (missing_values.Named "mean") (default_strategy params)),
       applying)
    else if decide (func_name = "encode_categorical") then
      (check_keywords "DataEncoder.one_hot_encode"
         ["columns"; "drop_first"] params ≫= λ _,
       encoding.one_hot_encode transformed_data
         (default None (columns params))
         (default false (drop_first params)),
       applying)
    else if decide (func_name = "validate_data") then
      let validated :=
        check_keywords "DataValidator.validate_data_types"
          ["expected_types"] params ≫= λ _,
        match expected_types params with
        | None => Raise (missing_argument "DataValidator.validate_data_types"
                           "expected_types")
        | Some types => validation.validate_data_types transformed_data types
        end in
      match validated with
      | Ok r =>
        (Ok transformed_data,
         applying ++ (if negb (validation.valid r)
                      then [(WARNING, ValidationProblems (validation.errors r))]
                      else []))
      | Raise e => (Raise e, applying)
      end
    else if decide (func_name = "create_features") then
      (check_keywords "FeatureEngineer.create_date_features"
         ["date_column"] params ≫= λ _,
       match date_column params with
       | None => Raise (missing_argument "FeatureEngineer.create_date_features"
                          "date_column")
       | Some c => feature_engineering.create_date_features transformed_data c
       end,
       applying)
    else
      (Ok transformed_data,
       applying ++ [warning ("Transformation non reconnue: " +:+ func_name)])
  end.

(** Lines 53-76: the loop, threading self.transformed_data. When a step
    raises, the attribute keeps the value of the last step that
    returned. *)
Fixpoint transform_loop (transformations : list transformation)
    (transformed_data : pd.DataFrame)
    : result unit * pd.DataFrame * list log_record :=
  match transformations with
  | [] => (Ok (), transformed_data, [])
  | t :: ts =>
    match apply_transformation transformed_data t with
    | (Ok df, logged) =>
      let '(r, df', logged') := transform_loop ts df in
      (r, df', logged ++ logged')
    | (Raise e, logged) => (Raise e, transformed_data, logged)
    end
  end.

Definition transform (transformations : list transformation) (st : state)
    : call pd.DataFrame :=
  match raw_data (self st) with
  | None =>
    (Raise (ValueError "Aucune donnée à transformer. Exécutez d'abord extract()."),
     st, [])
  | Some raw =>
    let started := [info "Début de la phase de transformation"] in
    let '(r, df, logged) := transform_loop transformations (pd.copy raw) in
    let st := set_transformed_data st df in
    match r with
    | Ok _ =>
      (Ok df, st,
       started ++ logged
       ++ [info ("Transformation terminée: " +:+ pretty (pd.shape df).2
                 +:+ " colonnes")])
    | Raise e =>
      (Raise e, st,
       started ++ logged
       ++ [error ("Erreur lors de la transformation: " +:+ str_exception e)])
    end
  end.

(** *** load, lines 84-108 *)

(** The keyword arguments that load reads with kwargs.get. *)
Record load_kwargs := {
  table_name : option string;
  if_exists : option string
}.

Definition load (destination : string) (kwargs : load_kwargs) (st : state)
    : call bool :=
  match transformed_data (self st) with
  | None =>
    (Raise (ValueError "Aucune donnée à charger. Exécutez d'abord transform()."),
     st, [])
  | Some df =>
    let started :=
      [info ("Début de la phase de chargement - Destination: " +:+ destination)] in
    let failed (e : exception) (st : state) : call bool :=
      (Raise e, st,
       started ++ [error ("Erreur lors du chargement: " +:+ str_exception e)]) in
    if decide (destination = "postgres") then
      let table_name := default "cacao_ratings" (table_name kwargs) in
      match to_postgres.__init__ cfg None (postgres st) with
      | Raise e => failed e st
      | Ok ldr =>
        match to_postgres.load_dataframe ldr df table_name
                (default "replace" (if_exists kwargs)) (postgres st) with
        | (Ok success, ldr, pg) =>
          (Ok success, set_loader st ldr pg,
           started ++ [if success then info "Chargement terminé avec succès"
                       else error "Échec du chargement"])
        | (Raise e, ldr, pg) => failed e (set_loader st ldr pg)
        end
      end
    else failed (ValueError ("Destination non supportée: " +:+ destination)) st
  end.

(** *** run_pipeline, lines 110-137 *)

(** The list used when transformations is None. *)
Definition default_transformations : list transformation :=
  [ step "handle_missing_values"
      {| strategy := Some (Some ∅);
         default_strategy := Some (missing_values.Named "mean");
         columns := None; drop_first := None; expected_types := None;
         date_column := None; other_keywords := [] |};
    step "encode_categorical"
      {| strategy := None; default_strategy := None;
         columns := Some None; drop_first := Some true;
         expected_types := None; date_column := None; other_keywords := [] |};
    step "validate_data" no_params ].

(** run_pipeline(source, transformations, destination, source_kwargs,
    load_kwargs): any exception of a stage is logged and turned into
    False. [extract] ignores its keyword arguments, so source_kwargs is
    left out. *)
Definition run_pipeline (source : string)
    (transformations : option (list transformation)) (destination : string)
    (kwargs : option load_kwargs) (st : state)
    : bool * state * list log_record :=
  let started := [info "Démarrage du pipeline ETL complet"] in
  let caught (e : exception) (st : state) (logged : list log_record) :=
    (false, st,
     started ++ logged
     ++ [error ("Erreur lors de l'exécution du pipeline: " +:+ str_exception e)]) in
  match extract source st with
  | (Raise e, st, l1) => caught e st l1
  | (Ok _, st, l1) =>
    let transformations := default default_transformations transformations in
    match transform transformations st with
    | (Raise e, st, l2) => caught e st (l1 ++ l2)
    | (Ok _, st, l2) =>
      match load destination
              (default {| table_name := None; if_exists := None |} kwargs) st with
      | (Raise e, st, l3) => caught e st (l1 ++ l2 ++ l3)
      | (Ok success, st, l3) =>
        (success, st,
         started ++ l1 ++ l2 ++ l3
         ++ [if success then info "Pipeline ETL exécuté avec succès"
             else error "Pipeline ETL terminé avec des erreurs"])
      end
    end
  end.

(** *** Auxiliary definitions for the statements below *)

(** The step names that [transform] dispatches on. *)
Definition recognized : list string :=
  ["handle_missing_values"; "encode_categorical"; "validate_data"; "create_features"].

(** A call of one of the four methods on a pipeline object. *)
Inductive method_call :=
  | call_extract (source : string)
  | call_transform (transformations : list transformation)
  | call_load (destination : string) (kwargs : load_kwargs)
  | call_run_pipeline (source : string)
      (transformations : option (list transformation)) (destination : string)
      (kwargs : option load_kwargs).

(** The state a call leaves, whether it returned or raised. *)
Definition perform (c : method_call) (st : state) : state :=
  match c with
  | call_extract source => (extract source st).1.2
  | call_transform ts => (transform ts st).1.2
  | call_load destination kwargs => (load destination kwargs st).1.2
  | call_run_pipeline source ts destination kwargs =>
    (run_pipeline source ts destination kwargs st).1.2
  end.

(** Does the call run [extract] to a normal return? *)
Definition extract_returns (c : method_call) (st : state) : bool :=
  match c with
  | call_extract source | call_run_pipeline source _ _ _ =>
    match (extract source st).1.1 with
    | Ok _ => true
    | Raise _ => false
    end
  | call_transform _ | call_load _ _ => false
  end.

(** No call of the history, made in order from [st], ran [extract] to
    a normal return. *)
Fixpoint never_extracted (history : list method_call) (st : state) : Prop :=
  match history with
  | [] => True
  | c :: history' =>
    extract_returns c st = false ∧ never_extracted history' (perform c st)
  end.

Definition after (history : list method_call) (st : state) : state :=
  foldl (λ st c, perform c st) st history.

End methods.

End etl_pipeline.

(** ** etl_package/transform/missing_values.py: drop_missing_values *)

Module missing_values_drop.

(** The number of present cells, as DataFrame.count gives it. *)
Definition notna_count (cells : list pd.cell) : Z :=
  Z.of_nat (length (filter (λ c, pd.isnull c = false) cells)).

(** df.dropna(thresh=thresh): the records with at least [thresh] present
    cells, in their order. (The index labels of the kept records are not
    part of the frame model.) *)
Definition dropna_rows (thresh : Z) (df : pd.DataFrame) : pd.DataFrame :=
  {| pd.columns := pd.columns df;
     pd.dtypes := pd.dtypes df;
     pd.values := filter (λ r, (thresh ≤ notna_count r)%Z) (pd.values df) |}.

(** df.dropna(axis=1, thresh=thresh): the columns with at least [thresh]
    present cells. *)
Definition dropna_columns (thresh : Z) (df : pd.DataFrame) : pd.DataFrame :=
  let keep :=
    (λ j, bool_decide (thresh ≤ notna_count (pd.s_values (pd.column_at df j)))%Z)
      <$> seq 0 (length (pd.columns df)) in
  {| pd.columns := pd.select_mask keep (pd.columns df);
     pd.dtypes := pd.select_mask keep (pd.dtypes df);
     pd.values := pd.select_mask keep <$> pd.values df |}.

(** MissingValuesHandler.drop_missing_values(df, threshold=0.5, axis=0),
    lines 104-112. The float [threshold] is used only through
    int(threshold * n), which is the argument [threshold_count] here. *)
Definition drop_missing_values (df : pd.DataFrame) (threshold_count : nat → Z)
    (axis : Z) : pd.DataFrame :=
  if decide (axis = 0%Z) then
    dropna_rows (threshold_count (pd.shape df).2) df
  else
    dropna_columns (threshold_count (pd.shape df).1) df.

End missing_values_drop.

(** ** etl_package/load/to_postgres.py: _get_sql_dtypes *)

Module to_postgres_schema.

(** The numbers of a column, missing cells skipped. *)
Definition numbers (s : pd.Series) : list Q :=
  omap (λ c, match c with pd.Num q => Some q | _ => None end) (pd.s_values s).

(** Series.min() and Series.max(): None stands for the NaN of a column
    without numbers. *)
Definition series_min (s : pd.Series) : option Q :=
  match numbers s with
  | [] => None
  | q :: qs => Some (foldl (λ m x, if Qle_bool x m then x else m) q qs)
  end.

Definition series_max (s : pd.Series) : option Q :=
  match numbers s with
  | [] => None
  | q :: qs => Some (foldl (λ m x, if Qle_bool m x then x else m) q qs)
  end.

(** m >= bound and m <= bound; a comparison with NaN is False. *)
Definition ge_bound (m : option Q) (bound : Z) : bool :=
  match m with
  | Some q => Qle_bool (inject_Z bound) q
  | None => false
  end.

Definition le_bound (m : option Q) (bound : Z) : bool :=
  match m with
  | Some q => Qle_bool q (inject_Z bound)
  | None => false
  end.

Section schema.
(** str(x) of a number stored in an object column. *)
Variable str_number : Q → string.

(** One element of df[column].astype(str). *)
Definition astype_str (c : pd.cell) : string :=
  match c with
  | pd.Str s => s
  | pd.PyNone => "None"
  | pd.NaN => "nan"
  | pd.Bool true => "True"
  | pd.Bool false => "False"
  | pd.Num q => str_number q
  end.

(** df[column].astype(str).str.len().max(): None stands for the NaN of a
    column without cells. *)
Definition max_length (s : pd.Series) : option nat :=
  match pd.s_values s with
  | [] => None
  | cells => Some (max_list ((λ c, String.length (astype_str c)) <$> cells))
  end.

(** Lines 110-131, the type chosen for one column. *)
Definition sql_type (s : pd.Series) : string :=
  match pd.s_dtype s with
  | pd.int64 =>
    if ge_bound (series_min s) (-32768) && le_bound (series_max s) 32767 then "SMALLINT"
    else if ge_bound (series_min s) (-2147483648) && le_bound (series_max s) 2147483647
    then "INTEGER"
    else "BIGINT"
  | pd.float64 => "FLOAT"
  | pd.datetime64 => "TIMESTAMP"
  | pd.bool_ => "BOOLEAN"
  | pd.object | pd.category =>
    match max_length s with
    | Some n => if decide (n ≤ 255) then "VARCHAR(255)" else "TEXT"
    | None => "TEXT"
    end
  end.

(** Lines 109-131: for column in df.columns. On a duplicated label
    df[column] is a DataFrame, which has no attribute dtype. *)
Fixpoint sql_dtypes_loop (df : pd.DataFrame) (cols : list string)
    (type_mapping : gmap string string) : result (gmap string string) :=
  match cols with
  | [] => mret type_mapping
  | column :: cols' =>
    sel ← pd.getitem df column;
    match sel with
    | pd.SeveralColumns _ =>
      Raise (AttributeError "'DataFrame' object has no attribute 'dtype'")
    | pd.OneColumn s =>
      sql_dtypes_loop df cols' (<[column := sql_type s]> type_mapping)
    end
  end.

(** PostgreSQLLoader._get_sql_dtypes(self, df), lines 106-133. *)
Definition _get_sql_dtypes (df : pd.DataFrame) : result (gmap string string) :=
  sql_dtypes_loop df (pd.columns df) ∅.

End schema.

End to_postgres_schema.

(** ** etl_package/pipelines/etl_pipeline.py: the module-level functions *)

Module etl_pipeline_script.
Import etl_pipeline.

Section script.
Context `{pd.Library} (web : web_scraper.Web) (cfg : config.Config).

(** The module-level run_pipeline, lines 141-146: a new ETLPipeline (whose
    __init__ logs one record) runs the whole pipeline with the arguments
    it is given. *)
Definition run_pipeline (source : string)
    (transformations : option (list transformation)) (destination : string)
    (kwargs : option load_kwargs) (pg : to_postgres.Postgres)
    : bool * state * list log_record :=
  let '(success, st, logged) :=
    etl_pipeline.run_pipeline web cfg source transformations destination kwargs
      {| self := ETLPipeline_; postgres := pg |} in
  (success, st, info "Pipeline ETL initialisé" :: logged).

(** The list built at lines 155-157. *)
Definition cacao_transformations : list transformation :=
  [ step "handle_missing_values"
      {| strategy := Some (Some ∅);
         default_strategy := Some (missing_values.Named "mean");
         columns := None; drop_first := None; expected_types := None;
         date_column := None; other_keywords := [] |} ].

(** main(), lines 148-170. *)
Definition main (pg : to_postgres.Postgres) : bool * state * list log_record :=
  let '(success, st, logged) :=
    etl_pipeline.run_pipeline web cfg "web_scraping" (Some cacao_transformations)
      "postgres"
      (Some {| table_name := Some "cacao_ratings_processed"; if_exists := None |})
      {| self := ETLPipeline_; postgres := pg |} in
  (success, st,
   [info "Démarrage du pipeline ETL Cacao Ratings"; info "Pipeline ETL initialisé"]
   ++ logged
   ++ [if success then info "Pipeline Cacao Ratings terminé avec succès"
       else error "Pipeline Cacao Ratings a échoué"]).

End script.

End etl_pipeline_script.

(** ** test_pipeline.py *)

Module test_pipeline.

Section step_by_step.
Context `{pd.Library} (web : web_scraper.Web) (cfg : config.Config).


End step_by_step.

End test_pipeline.

(** * Concrete inputs *)

Module examples.
Import web_scraper.

(** A header and three records of two cells. *)
Definition small_table : table := ["A"; "B"] :: replicate 3 ["1"; "2"].

(** A header and ten records of five cells. *)
Definition large_table : table :=
  ["a"; "b"; "c"; "d"; "e"] :: replicate 10 ["1"; "2"; "3"; "4"; "5"].

Definition one_row_table : table := [["only"; "row"]].

(** The first header cell is empty. *)
Definition blank_header_table : table := [[""; "B"]; ["1"; "2"]].

(** Two header cells with the same text. *)
Definition duplicate_labels_table : table := [["A"; "A"]; ["1"; "2"]].

Definition duplicate_labels_frame : pd.DataFrame :=
  {| pd.columns := ["A"; "A"];
     pd.dtypes := [pd.object; pd.object];
     pd.values := [[pd.Str "1"; pd.Str "2"]] |}.

(** A site that answers with a page parsed as [soup]. *)
Definition page (soup : BeautifulSoup) : Web :=
  {| requests_get := λ _, Ok "<html></html>";
     html_parser := λ _, Ok soup |}.

(** A site that cannot be reached. *)
Definition unreachable : Web :=
  {| requests_get := λ _, Raise (RequestException "Connection timed out");
     html_parser := λ _, Ok [] |}.

(** A site whose answer makes the parser raise. *)
Definition unparsable : Web :=
  {| requests_get := λ _, Ok "";
     html_parser := λ _, Raise (OtherException "parser failure") |}.

(** A pandas for running the model on inputs that reach none of the
    library's statistics, dummies or datetime functions. *)
Definition bare_pandas : pd.Library :=
  {| pd.mean := λ _, pd.NaN;
     pd.median := λ _, pd.NaN;
     pd.mode := λ _, [];
     pd.get_dummies := λ _ _ _, Raise (OtherException "get_dummies");
     pd.to_datetime := λ _, Raise (OtherException "to_datetime");
     pd.dt_year := id; pd.dt_month := id; pd.dt_day := id;
     pd.dt_dayofweek := id; pd.dt_quarter := id;
     pd.is_dtype_equal := λ _ _, false |}.

(** A reachable server without tables. *)
Definition server : to_postgres.Postgres :=
  {| to_postgres.accepts_connections := true;
     to_postgres.accepts_writes := true;
     to_postgres.tables := ∅;
     to_postgres.to_sql_calls := [] |}.

(** A new pipeline object in front of that server. *)
Definition fresh : etl_pipeline.state :=
  {| etl_pipeline.self := etl_pipeline.ETLPipeline_;
     etl_pipeline.postgres := server |}.

End examples.

(** * Further definitions for the statements *)

Module statements.

(** Every cell is a str. *)
Definition all_str (df : pd.DataFrame) : Prop :=
  Forall (Forall (λ c, ∃ s, c = pd.Str s)) (pd.values df).

(** The attributes of a pipeline object are set in order: no transformed
    data without raw data, no loader without transformed data. *)
Definition in_order (p : etl_pipeline.ETLPipeline) : Prop :=
  (etl_pipeline.transformed_data p ≠ None → etl_pipeline.raw_data p ≠ None)
  ∧ (etl_pipeline.loader p ≠ None → etl_pipeline.transformed_data p ≠ None).

(** Series.fillna(q) on one cell: a missing cell becomes the number. *)
Definition fill (q : Q) (c : pd.cell) : pd.cell :=
  if pd.isnull c then pd.Num q else c.


(** The column has a number, and every number of it lies between [lo]
    and [hi]. *)
Definition within (lo hi : Z) (s : pd.Series) : Prop :=
  to_postgres_schema.numbers s ≠ []
  ∧ Forall (λ q, Qle (inject_Z lo) q ∧ Qle q (inject_Z hi)) (to_postgres_schema.numbers s).

End statements.

Module examples_more.

(** The frame scraped from [examples.small_table]. *)
Definition small_frame : pd.DataFrame :=
  web_scraper.frame_of ["A"; "B"] (replicate 3 ["1"; "2"]).



(** A frame with a float column and an object column, the second record
    missing in both. *)
Definition gappy_frame : pd.DataFrame :=
  {| pd.columns := ["rating"; "origin"];
     pd.dtypes := [pd.float64; pd.object];
     pd.values := [[pd.Num (3 # 1)%Q; pd.Str "Peru"];
                   [pd.NaN; pd.PyNone];
                   [pd.Num (4 # 1)%Q; pd.Str "Ghana"]] |}.

(** [gappy_frame] with the missing cells replaced by 0. *)
Definition zero_filled_frame : pd.DataFrame :=
  {| pd.columns := ["rating"; "origin"];
     pd.dtypes := [pd.float64; pd.object];
     pd.values := [[pd.Num (3 # 1)%Q; pd.Str "Peru"];
                   [pd.Num (0 # 1)%Q; pd.Num (0 # 1)%Q];
                   [pd.Num (4 # 1)%Q; pd.Str "Ghana"]] |}.

(** An integer column that needs more than 16 bits. *)
Definition int_series : pd.Series :=
  {| pd.s_dtype := pd.int64;
     pd.s_values := [pd.Num (1 # 1)%Q; pd.Num (40000 # 1)%Q] |}.


(** int(0.5 * n). *)
Definition half (n : nat) : Z := (Z.of_nat n / 2)%Z.

(** No keyword arguments. *)
Definition no_kwargs : etl_pipeline.load_kwargs :=
  {| etl_pipeline.table_name := None; etl_pipeline.if_exists := None |}.

End examples_more.

(** * Properties *)

(** ** The table extraction *)

Module web_scraper_facts.
Import web_scraper.

Lemma rows_with_cells_nonempty (t : table) (cells : list string) :
  cells ∈ rows_with_cells t → cells ≠ [].
Proof. unfold rows_with_cells. rewrite list_elem_of_filter. tauto. Qed.

Lemma normalize_row_length (max_cols : nat) (row : list string) :
  length (normalize_row max_cols row) = max_cols.
Proof.
  unfold normalize_row. repeat case_decide.
  - rewrite length_app, length_replicate. lia.
  - rewrite length_take. lia.
  - lia.
Qed.

Lemma positional_headers_length (n : nat) : length (positional_headers n) = n.
Proof. unfold positional_headers. by rewrite length_fmap, length_seq. Qed.

Lemma positional_headers_lookup (n j : nat) :
  j < n → positional_headers n !! j = Some ("Colonne_" +:+ pretty (j + 1)).
Proof.
  intros Hj. unfold positional_headers.
  rewrite list_lookup_fmap, lookup_seq_lt by done. done.
Qed.

Lemma usable_headers_spec (row : list string) :
  usable_headers row = true ↔ Forall (λ h, h ≠ "") row.
Proof.
  unfold usable_headers. rewrite forallb_forall, Forall_forall.
  split; intros Hall h Hin.
  - apply list_elem_of_In, Hall, bool_decide_eq_true in Hin.
    intros ->. simpl in Hin. lia.
  - apply bool_decide_eq_true. apply list_elem_of_In, Hall in Hin.
    destruct h; [done | simpl; lia].
Qed.

Lemma max_list_uniform (k : nat) (ns : list nat) :
  ns ≠ [] → Forall (λ n, n = k) ns → max_list ns = k.
Proof.
  intros Hne Hall. induction Hall as [|n ns -> Hall IH]; [done|].
  simpl. destruct ns as [|m ns]; [simpl; lia|].
  rewrite IH by done. lia.
Qed.

(** On records that are all as wide as the labels, the constructor
    returns them as they are. *)
Lemma DataFrame_from_records_uniform (data : list (list string)) (cols : list string) :
  Forall (λ r, length r = length cols) data →
  pd.DataFrame_from_records data cols =
    Ok {| pd.columns := cols;
          pd.dtypes := replicate (length cols) pd.object;
          pd.values := (λ r : list string, pd.Str <$> r) <$> data |}.
Proof.
  intros Hall. unfold pd.DataFrame_from_records.
  destruct data as [|r data]; [done|].
  assert (max_list (length <$> r :: data) = length cols) as ->.
  { apply max_list_uniform; [done|]. by apply Forall_fmap. }
  rewrite decide_True by done. do 2 f_equal.
  apply Forall_fmap_ext_1. eapply Forall_impl; [exact Hall|].
  intros r' Hr'. simpl in Hr'. rewrite Hr', Nat.sub_diag. simpl. by rewrite app_nil_r.
Qed.

Lemma table_frame_short (t : table) :
  length (rows_with_cells t) < 2 → table_frame t = Ok None.
Proof. intros Hlen. unfold table_frame. rewrite decide_True; [done | by right]. Qed.

Lemma table_frame_candidate (t : table) (row0 : list string) (rest : list (list string)) :
  rows_with_cells t = row0 :: rest → rest ≠ [] →
  table_frame t = Ok (Some (frame_of row0 rest)).
Proof.
  intros Hdata Hrest.
  assert (row0 ≠ []) as Hrow0.
  { apply (rows_with_cells_nonempty t). rewrite Hdata. left. }
  assert (0 < length row0) as Hwidth by (destruct row0; [done | simpl; lia]).
  assert (0 < length rest) as Hrows by (destruct rest; [done | simpl; lia]).
  unfold table_frame, frame_of. rewrite Hdata.
  rewrite decide_False by (intros [? | Hlen]; [done | simpl in Hlen; lia]).
  destruct (usable_headers row0); cbv beta iota zeta.
  - rewrite DataFrame_from_records_uniform
      by (apply Forall_fmap, Forall_true; intros r; apply normalize_row_length).
    rewrite <- list_fmap_compose.
    unfold pd.empty, mbind, result_bind, mret, result_ret; simpl.
    rewrite length_fmap.
    destruct rest, row0; simpl in *; done || lia.
  - rewrite DataFrame_from_records_uniform
      by (rewrite positional_headers_length;
          apply Forall_fmap, Forall_true; intros r; apply normalize_row_length).
    rewrite <- list_fmap_compose, !positional_headers_length.
    unfold pd.empty, mbind, result_bind, mret, result_ret; simpl.
    rewrite positional_headers_length.
    destruct row0; simpl in *; done || lia.
Qed.

(** No table makes the body of the loop raise. *)
Lemma table_frame_total (t : table) : ∃ r, table_frame t = Ok r.
Proof.
  destruct (rows_with_cells t) as [|row0 [|row1 rest]] eqn:Hdata.
  - exists None. apply table_frame_short. rewrite Hdata. simpl. lia.
  - exists None. apply table_frame_short. rewrite Hdata. simpl. lia.
  - eexists. by apply (table_frame_candidate t row0 (row1 :: rest)).
Qed.

Lemma table_frame_Some_nonempty (t : table) (df : pd.DataFrame) :
  table_frame t = Ok (Some df) → pd.empty df = false.
Proof.
  intros Hdf. unfold table_frame in Hdf.
  case_decide; [done|].
  destruct (rows_with_cells t) as [|row0 rest]; [done|].
  destruct (usable_headers row0); cbv beta iota zeta in Hdf;
    (destruct (pd.DataFrame_from_records _ _) as [df'|]; [|done]);
    unfold mbind, result_bind, mret, result_ret in Hdf;
    by destruct (pd.empty df') eqn:Hempty; simplify_eq.
Qed.

Lemma tables_loop_candidates (ts : list table) (acc : list pd.DataFrame) :
  tables_loop ts acc = Ok (acc ++ omap candidate ts).
Proof.
  revert acc. induction ts as [|t ts IH]; intros acc; simpl.
  - by rewrite app_nil_r.
  - unfold candidate. destruct (table_frame_total t) as [r ->].
    unfold mbind, result_bind. rewrite IH. destruct r; [|done].
    by rewrite <- app_assoc.
Qed.

Lemma tables_loop_app (ts1 ts2 : list table) (acc : list pd.DataFrame) :
  tables_loop (ts1 ++ ts2) acc = tables_loop ts1 acc ≫= tables_loop ts2.
Proof.
  rewrite !tables_loop_candidates. unfold mbind, result_bind.
  rewrite tables_loop_candidates. by rewrite omap_app, app_assoc.
Qed.

Lemma manual_table_scraping_eq (soup : BeautifulSoup) (cands : list pd.DataFrame) :
  tables_loop soup [] = Ok cands →
  manual_table_scraping soup =
    match cands with
    | first :: rest => Some (py_max area first rest)
    | [] => None
    end.
Proof.
  intros Hloop. unfold manual_table_scraping. case_decide as Hsoup.
  - subst soup. simpl in Hloop. by injection Hloop as <-.
  - rewrite Hloop. unfold mbind, result_bind. by destruct cands.
Qed.

(** max(..., key=...) returns the first element among those of largest key. *)
Lemma py_max_first_largest {A} (key : A → nat) (first : A) (rest : list A) :
  ∃ i, (first :: rest) !! i = Some (py_max key first rest)
    ∧ (∀ x, x ∈ first :: rest → key x ≤ key (py_max key first rest))
    ∧ (∀ j x, j < i → (first :: rest) !! j = Some x → key x < key (py_max key first rest)).
Proof.
  induction rest as [|x rest IH] using rev_ind.
  - exists 0. split; [done|]. split.
    + intros x Hx. apply list_elem_of_singleton in Hx as ->. done.
    + intros j x Hj. lia.
  - destruct IH as (i & Hi & Hmax & Hfirst).
    unfold py_max in *. rewrite foldl_app. simpl.
    set (best := foldl _ first rest) in *.
    assert (i < length (first :: rest)) as Hlt by (by eapply lookup_lt_Some).
    case_decide as Hcmp.
    + exists (length (first :: rest)). split; [|split].
      * by rewrite (lookup_app_r (first :: rest) [x]), Nat.sub_diag.
      * intros y Hy. change (y ∈ (first :: rest) ++ [x]) in Hy.
        apply elem_of_app in Hy as [Hy | Hy].
        -- apply Hmax in Hy. lia.
        -- apply list_elem_of_singleton in Hy as ->. done.
      * intros j y Hj Hy. change (((first :: rest) ++ [x]) !! j = Some y) in Hy.
        rewrite lookup_app_l in Hy by done.
        apply list_elem_of_lookup_2, Hmax in Hy. lia.
    + exists i. split; [|split].
      * change (((first :: rest) ++ [x]) !! i = Some best).
        by rewrite lookup_app_l.
      * intros y Hy. change (y ∈ (first :: rest) ++ [x]) in Hy.
        apply elem_of_app in Hy as [Hy | Hy]; [by apply Hmax|].
        apply list_elem_of_singleton in Hy as ->. lia.
      * intros j y Hj Hy. change (((first :: rest) ++ [x]) !! j = Some y) in Hy.
        rewrite lookup_app_l in Hy by lia. by eapply Hfirst.
Qed.
Lemma scrape_cacao_ratings_parsed (web : Web) (content : string) (soup : BeautifulSoup) :
  requests_get web url = Ok content → html_parser web content = Ok soup →
  scrape_cacao_ratings web =
    match manual_table_scraping soup with
    | Some df => if pd.empty df then pd.DataFrame_ else df
    | None => pd.DataFrame_
    end.
Proof.
  intros Hget Hparse. unfold scrape_cacao_ratings.
  rewrite Hget. unfold mbind, result_bind. rewrite Hparse.
  destruct (manual_table_scraping soup) as [df|]; [|done].
  by destruct (pd.empty df).
Qed.

Lemma scrape_cacao_ratings_failed (web : Web) :
  (∃ e, requests_get web url = Raise e)
  ∨ (∃ content e, requests_get web url = Ok content ∧ html_parser web content = Raise e) →
  scrape_cacao_ratings web = pd.DataFrame_.
Proof.
  intros [[e He] | (content & e & Hget & He)]; unfold scrape_cacao_ratings.
  - rewrite He. unfold mbind, result_bind. by destruct (is_RequestException e).
  - rewrite Hget. unfold mbind, result_bind. rewrite He.
    by destruct (is_RequestException e).
Qed.

(** Whatever the site does, the scraper returns a frame that is either
    empty with shape (0, 0) or one of the non-empty candidates. *)
Lemma scrape_cacao_ratings_empty (web : Web) :
  pd.empty (scrape_cacao_ratings web) = true ↔ scrape_cacao_ratings web = pd.DataFrame_.
Proof.
  split; [|by intros ->].
  unfold scrape_cacao_ratings.
  destruct (requests_get web url) as [content|e]; unfold mbind, result_bind;
    [|by destruct (is_RequestException e)].
  destruct (html_parser web content) as [soup|e]; [|by destruct (is_RequestException e)].
  destruct (manual_table_scraping soup) as [df|]; [|done].
  destruct (pd.empty df) eqn:Hempty; simpl; [done|]. congruence.
Qed.

Lemma candidates_nonempty (soup : BeautifulSoup) (cands : list pd.DataFrame) (c : pd.DataFrame) :
  tables_loop soup [] = Ok cands → c ∈ cands → pd.empty c = false.
Proof.
  rewrite tables_loop_candidates. intros [= <-] Hc.
  apply list_elem_of_omap in Hc as (t & _ & Ht).
  apply (table_frame_Some_nonempty t). unfold candidate in Ht.
  by destruct (table_frame t) as [r|]; simplify_eq.
Qed.

(** The table with the rows A B / 1 2 / 3 4 gives the labels A, B and
    two records. *)
Example manual_table_scraping_one_table :
  manual_table_scraping [[["A"; "B"]; ["1"; "2"]; ["3"; "4"]]] =
    Some {| pd.columns := ["A"; "B"];
            pd.dtypes := [pd.object; pd.object];
            pd.values := [[pd.Str "1"; pd.Str "2"]; [pd.Str "3"; pd.Str "4"]] |}.
Proof. reflexivity. Qed.

(** Of two candidates of the same area the first is returned; rows without
    cells are not counted. *)
Example manual_table_scraping_tie :
  pd.columns <$> manual_table_scraping
    [[["A"; "B"]; []; ["1"; "2"]]; [["C"; "D"]; ["3"; "4"]]] = Some ["A"; "B"].
Proof. reflexivity. Qed.

(** C1. When the tables of a document give a non-empty candidate_dfs,
    [manual_table_scraping] returns the candidate of largest
    rows × columns, the first one among those of that area, and
    [scrape_cacao_ratings] returns the same frame for a site serving that
    document. In particular, of a candidate of shape (3, 2) and one of shape
    (10, 5) the latter is returned, whichever table comes first. *)
Theorem largest_candidate_is_returned :
  (∀ (soup : BeautifulSoup) (candidate_dfs : list pd.DataFrame),
     tables_loop soup [] = Ok candidate_dfs → candidate_dfs ≠ [] →
     ∃ best i,
       manual_table_scraping soup = Some best
       ∧ candidate_dfs !! i = Some best
       ∧ (∀ c, c ∈ candidate_dfs → area c ≤ area best)
       ∧ (∀ j c, j < i → candidate_dfs !! j = Some c → area c < area best)
       ∧ (∀ web content,
            requests_get web url = Ok content → html_parser web content = Ok soup →
            scrape_cacao_ratings web = best))
  ∧ (∀ (t_small t_large : table) (small large : pd.DataFrame),
       table_frame t_small = Ok (Some small) → table_frame t_large = Ok (Some large) →
       pd.shape small = (3, 2) → pd.shape large = (10, 5) →
       manual_table_scraping [t_small; t_large] = Some large
       ∧ manual_table_scraping [t_large; t_small] = Some large).
Proof.
  split.
  - intros soup cands Hloop Hne.
    destruct cands as [|first rest]; [done|].
    destruct (py_max_first_largest area first rest) as (i & Hi & Hmax & Hfirst).
    exists (py_max area first rest), i.
    rewrite (manual_table_scraping_eq soup _ Hloop).
    repeat split; try done.
    intros web content Hget Hparse.
    rewrite (scrape_cacao_ratings_parsed web content soup Hget Hparse).
    rewrite (manual_table_scraping_eq soup _ Hloop).
    rewrite (candidates_nonempty soup (first :: rest) _ Hloop); [done|].
    by eapply list_elem_of_lookup_2.
  - intros t_small t_large small large Hsmall Hlarge Hs Hl.
    assert (area small = 6) as Has by (unfold area; by rewrite Hs).
    assert (area large = 50) as Hal by (unfold area; by rewrite Hl).
    split.
    + rewrite (manual_table_scraping_eq _ [small; large]).
      * unfold py_max. simpl. rewrite decide_True; [done | lia].
      * simpl. rewrite Hsmall. unfold mbind, result_bind. simpl. by rewrite Hlarge.
    + rewrite (manual_table_scraping_eq _ [large; small]).
      * unfold py_max. simpl. rewrite decide_False; [done | lia].
      * simpl. rewrite Hlarge. unfold mbind, result_bind. simpl. by rewrite Hsmall.
Qed.

Lemma largest_candidate_is_returned_witness :
  (∃ best i,
     manual_table_scraping [examples.small_table; examples.large_table] = Some best
     ∧ [candidate examples.small_table; candidate examples.large_table] !! i = Some (Some best)
     ∧ area best = 50)
  ∧ manual_table_scraping [examples.large_table; examples.small_table]
    = manual_table_scraping [examples.small_table; examples.large_table].
Proof.
  split.
  - destruct (proj1 largest_candidate_is_returned
                [examples.small_table; examples.large_table]
                [frame_of ["A"; "B"] (replicate 3 ["1"; "2"]);
                 frame_of ["a"; "b"; "c"; "d"; "e"] (replicate 10 ["1"; "2"; "3"; "4"; "5"])])
      as (best & i & Hbest & Hi & _); [reflexivity | discriminate |].
    exists best, 1. split; [exact Hbest|].
    vm_compute in Hbest. injection Hbest as <-. by vm_compute.
  - destruct (proj2 largest_candidate_is_returned
                examples.small_table examples.large_table
                (frame_of ["A"; "B"] (replicate 3 ["1"; "2"]))
                (frame_of ["a"; "b"; "c"; "d"; "e"] (replicate 10 ["1"; "2"; "3"; "4"; "5"])))
      as [H1 H2]; [reflexivity | reflexivity | reflexivity | reflexivity |].
    by rewrite H1, H2.
Defined.

(** The helper itself returns None when no table gives a candidate. *)
Lemma manual_table_scraping_None (soup : BeautifulSoup) :
  tables_loop soup [] = Ok [] → manual_table_scraping soup = None.
Proof. intros Hloop. by rewrite (manual_table_scraping_eq soup [] Hloop). Qed.

(** C3 as stated fails for [manual_table_scraping]: on a document without
    tables, and on one whose only table has a single row, it returns None,
    not a frame. *)
Lemma manual_table_scraping_returns_None :
  manual_table_scraping [] = None
  ∧ manual_table_scraping [examples.one_row_table] = None.
Proof. split; reflexivity. Qed.

(** C3, amended. For a parsed document without any table, and whenever no
    table gives a candidate, [manual_table_scraping] returns None, and
    [scrape_cacao_ratings], for a site serving that document, returns
    pd.DataFrame(), the frame with zero rows and zero columns: a frame, not
    None, and nothing is raised. *)
Theorem no_candidate_gives_empty_frame (soup : BeautifulSoup) :
  soup = [] ∨ tables_loop soup [] = Ok [] →
  manual_table_scraping soup = None
  ∧ (∀ web content,
       requests_get web url = Ok content → html_parser web content = Ok soup →
       scrape_cacao_ratings web = pd.DataFrame_
       ∧ pd.shape (scrape_cacao_ratings web) = (0, 0)).
Proof.
  intros Hnone.
  assert (tables_loop soup [] = Ok []) as Hloop by (by destruct Hnone as [-> | ?]).
  split; [by apply manual_table_scraping_None|].
  intros web content Hget Hparse.
  rewrite (scrape_cacao_ratings_parsed web content soup Hget Hparse).
  by rewrite (manual_table_scraping_None soup Hloop).
Qed.

Lemma no_candidate_gives_empty_frame_witness :
  manual_table_scraping [examples.one_row_table] = None
  ∧ scrape_cacao_ratings (examples.page [examples.one_row_table]) = pd.DataFrame_
  ∧ pd.shape (scrape_cacao_ratings (examples.page [examples.one_row_table])) = (0, 0).
Proof.
  destruct (no_candidate_gives_empty_frame [examples.one_row_table])
    as [Hnone Hscrape]; [right; reflexivity|].
  split; [exact Hnone|].
  apply (Hscrape (examples.page [examples.one_row_table]) "<html></html>");
    reflexivity.
Defined.

Lemma table_frame_row_lengths (t : table) (df : pd.DataFrame) :
  table_frame t = Ok (Some df) →
  Forall (λ r, length r = length (pd.columns df)) (pd.values df).
Proof.
  intros Hdf.
  destruct (rows_with_cells t) as [|row0 [|row1 rest]] eqn:Hdata.
  - rewrite table_frame_short in Hdf; [done | rewrite Hdata; simpl; lia].
  - rewrite table_frame_short in Hdf; [done | rewrite Hdata; simpl; lia].
  - rewrite (table_frame_candidate t row0 (row1 :: rest)) in Hdf by done.
    injection Hdf as <-. unfold frame_of.
    destruct (usable_headers row0); cbn [pd.values pd.columns];
      rewrite ?positional_headers_length; apply Forall_fmap, Forall_true;
      intros r; simpl; by rewrite length_fmap, normalize_row_length.
Qed.

(** C4. Normalizing a row against a header of k labels gives a row of
    exactly k cells: a longer row is cut to its first k cells, a shorter one
    is filled at the end with empty strings; ["x"] under three labels becomes
    ["x"; ""; ""] and ["x"; "y"; "z"; "w"] becomes ["x"; "y"; "z"]. Every
    record of every frame built from a table is as long as the labels. *)
Theorem normalize_row_spec (k : nat) (row : list string) :
  length (normalize_row k row) = k
  ∧ (k < length row → normalize_row k row = take k row)
  ∧ (length row < k → normalize_row k row = row ++ replicate (k - length row) "")
  ∧ normalize_row 3 ["x"] = ["x"; ""; ""]
  ∧ normalize_row 3 ["x"; "y"; "z"; "w"] = ["x"; "y"; "z"]
  ∧ (∀ t df, table_frame t = Ok (Some df) →
       Forall (λ r, length r = length (pd.columns df)) (pd.values df)).
Proof.
  split; [apply normalize_row_length|].
  split; [|split; [|split; [done|split; [done|apply table_frame_row_lengths]]]].
  - intros Hlong. unfold normalize_row.
    rewrite decide_False by lia. by rewrite decide_True.
  - intros Hshort. unfold normalize_row. by rewrite decide_True.
Qed.

Lemma normalize_row_spec_witness :
  normalize_row 2 ["p"; "q"; "r"] = take 2 ["p"; "q"; "r"]
  ∧ normalize_row 4 ["p"] = ["p"] ++ replicate 3 "".
Proof.
  split.
  - apply (proj1 (proj2 (normalize_row_spec 2 ["p"; "q"; "r"]))). simpl. lia.
  - apply (proj1 (proj2 (proj2 (normalize_row_spec 4 ["p"])))). simpl. lia.
Defined.

(** C5. A table with fewer than two rows that have cells contributes no
    candidate and does not stop the loop: the candidates and the result are
    those of the document without that table, and a document whose only
    table is such a table gives no frame. *)
Theorem short_table_is_passed_over (before after : list table) (t : table) :
  length (rows_with_cells t) < 2 →
  table_frame t = Ok None
  ∧ tables_loop (before ++ t :: after) [] = tables_loop (before ++ after) []
  ∧ manual_table_scraping (before ++ t :: after) = manual_table_scraping (before ++ after)
  ∧ manual_table_scraping [t] = None.
Proof.
  intros Hshort.
  pose proof (table_frame_short t Hshort) as Hframe.
  assert (∀ ts1 ts2, tables_loop (ts1 ++ t :: ts2) [] = tables_loop (ts1 ++ ts2) []) as Hloop.
  { intros ts1 ts2. rewrite !tables_loop_candidates, !omap_app. simpl.
    unfold candidate at 2. by rewrite Hframe. }
  assert (∀ ts1 ts2, manual_table_scraping (ts1 ++ t :: ts2) = manual_table_scraping (ts1 ++ ts2))
    as Hmanual.
  { intros ts1 ts2.
    rewrite (manual_table_scraping_eq _ _ (tables_loop_candidates (ts1 ++ t :: ts2) [])).
    rewrite (manual_table_scraping_eq _ _ (tables_loop_candidates (ts1 ++ ts2) [])).
    rewrite !omap_app. simpl. unfold candidate at 2. by rewrite Hframe. }
  repeat split; [done | apply Hloop | apply Hmanual | apply (Hmanual [] [])].
Qed.

Lemma short_table_is_passed_over_witness :
  table_frame examples.one_row_table = Ok None
  ∧ tables_loop ([examples.small_table] ++ examples.one_row_table :: [examples.large_table]) []
    = tables_loop ([examples.small_table] ++ [examples.large_table]) []
  ∧ manual_table_scraping
      ([examples.small_table] ++ examples.one_row_table :: [examples.large_table])
    = manual_table_scraping ([examples.small_table] ++ [examples.large_table])
  ∧ manual_table_scraping [examples.one_row_table] = None.
Proof.
  apply (short_table_is_passed_over [examples.small_table] [examples.large_table]
           examples.one_row_table).
  simpl. lia.
Defined.

(** C6 as stated fails: for a first row with an empty cell the labels are
    Colonne_1, Colonne_2 and not Column_1, Column_2. *)
Lemma positional_names_are_Colonne :
  pd.columns <$> manual_table_scraping [examples.blank_header_table]
    = Some ["Colonne_1"; "Colonne_2"]
  ∧ pd.columns <$> manual_table_scraping [examples.blank_header_table]
    ≠ Some ["Column_1"; "Column_2"].
Proof. split; [reflexivity | discriminate]. Qed.

(** C6, amended. For a table with a first row and at least one more row:
    if every cell of the first row is a non-empty string, the first row
    gives the labels and the following rows the records; otherwise the
    labels are Colonne_1 .. Colonne_k, with k the length of the first row,
    and the first row is kept, unchanged, as the first record. *)
Theorem header_decision (t : table) (row0 : list string) (rest : list (list string)) :
  rows_with_cells t = row0 :: rest → rest ≠ [] →
  ∃ df, table_frame t = Ok (Some df)
    ∧ (Forall (λ h, h ≠ "") row0 →
         pd.columns df = row0
         ∧ pd.values df = (λ r, pd.Str <$> normalize_row (length row0) r) <$> rest)
    ∧ (¬ Forall (λ h, h ≠ "") row0 →
         length (pd.columns df) = length row0
         ∧ (∀ j, j < length row0 →
              pd.columns df !! j = Some ("Colonne_" +:+ pretty (j + 1)))
         ∧ pd.values df =
             (pd.Str <$> row0)
             :: ((λ r, pd.Str <$> normalize_row (length row0) r) <$> rest)).
Proof.
  intros Hdata Hrest. exists (frame_of row0 rest).
  split; [by apply table_frame_candidate|].
  unfold frame_of. split.
  - intros Hall. apply usable_headers_spec in Hall. by rewrite Hall.
  - intros Hnot. rewrite <- usable_headers_spec in Hnot.
    apply not_true_is_false in Hnot. rewrite Hnot. cbn [pd.columns pd.values].
    split; [apply positional_headers_length|].
    split; [intros j Hj; by apply positional_headers_lookup|].
    rewrite fmap_cons. do 2 f_equal.
    unfold normalize_row. rewrite !decide_False by lia. done.
Qed.

Lemma header_decision_witness :
  ∃ df, table_frame examples.blank_header_table = Ok (Some df)
    ∧ pd.columns df !! 1 = Some "Colonne_2"
    ∧ pd.values df = [[pd.Str ""; pd.Str "B"]; [pd.Str "1"; pd.Str "2"]].
Proof.
  destruct (header_decision examples.blank_header_table [""; "B"] [["1"; "2"]])
    as (df & Hdf & _ & Hnames); [reflexivity | discriminate |].
  exists df. split; [exact Hdf|].
  destruct Hnames as (_ & Hlookup & Hvalues).
  - intros Hall. by apply Forall_cons_1 in Hall as [? _].
  - split; [apply (Hlookup 1); simpl; lia | exact Hvalues].
Defined.

End web_scraper_facts.

(** ** Imputation of missing values *)

Module missing_values_facts.
Import missing_values.

Lemma positions_from_absent (i : nat) (label : string) (cols : list string) :
  label ∉ cols → pd.positions_from i label cols = [].
Proof.
  revert i. induction cols as [|c cols IH]; intros i Hnotin; [done|].
  apply not_elem_of_cons in Hnotin as [Hne Hnotin]. simpl.
  rewrite decide_False by done. by apply IH.
Qed.

Lemma positions_from_unique (i : nat) (label : string) (cols : list string) :
  NoDup cols → label ∈ cols →
  ∃ j, cols !! j = Some label ∧ pd.positions_from i label cols = [i + j].
Proof.
  intros Hnodup. revert i.
  induction Hnodup as [|c cols Hc Hnodup IH]; intros i Hin; [by apply elem_of_nil in Hin|].
  simpl. case_decide as Heq.
  - subst c. exists 0. split; [done|].
    rewrite positions_from_absent by done. by rewrite Nat.add_0_r.
  - apply elem_of_cons in Hin as [-> | Hin]; [done|].
    destruct (IH (S i) Hin) as (j & Hj & ->).
    exists (S j). split; [done|]. f_equal. lia.
Qed.

Lemma column_at_no_nulls (df : pd.DataFrame) (j : nat) :
  pd.rectangular df → pd.no_missing df → j < length (pd.columns df) →
  pd.has_nulls (pd.OneColumn (pd.column_at df j)) = Ok false.
Proof.
  intros Hrect Hfull Hj. unfold pd.has_nulls, pd.column_at. cbn [pd.s_values].
  f_equal. apply bool_decide_eq_false.
  enough (filter (λ c, pd.isnull c = true)
            ((λ r, default pd.PyNone (r !! j)) <$> pd.values df) = []) as ->
    by (simpl; lia).
  unfold pd.rectangular, pd.no_missing in *.
  induction (pd.values df) as [|r rows IH]; [done|].
  apply Forall_cons_1 in Hrect as [Hr Hrect].
  apply Forall_cons_1 in Hfull as [Hcells Hfull].
  rewrite fmap_cons, filter_cons_False; [by apply IH|].
  destruct (lookup_lt_is_Some_2 r j) as [c Hc]; [lia|].
  rewrite Hc. simpl.
  rewrite (proj1 (Forall_forall _ _) Hcells c) by (by eapply list_elem_of_lookup_2).
  done.
Qed.

Lemma positions_from_nil (i : nat) (label : string) (cols : list string) :
  pd.positions_from i label cols = [] → label ∉ cols.
Proof.
  revert i. induction cols as [|c cols IH]; intros i Hpos; [apply not_elem_of_nil|].
  simpl in Hpos. case_decide; [done|].
  apply not_elem_of_cons. split; [done | by eapply IH].
Qed.

Lemma single_positions_NoDup (i : nat) (cols : list string) :
  (∀ c, c ∈ cols → ∃ j, pd.positions_from i c cols = [j]) → NoDup cols.
Proof.
  revert i. induction cols as [|c cols IH]; intros i Hone; [constructor|].
  assert (c ∉ cols) as Hc.
  { destruct (Hone c) as [j Hj]; [left|]. simpl in Hj.
    rewrite decide_True in Hj by done. injection Hj as _ Hj.
    by eapply positions_from_nil. }
  constructor; [done|]. apply (IH (S i)). intros c' Hc'.
  destruct (Hone c') as [j Hj]; [by right|]. simpl in Hj.
  rewrite decide_False in Hj by (intros ->; done). by exists j.
Qed.

Lemma setitem_columns (df : pd.DataFrame) (label : string) (s : pd.Series) :
  label ∈ pd.columns df → pd.columns (pd.setitem df label s) = pd.columns df.
Proof.
  intros Hin. unfold pd.setitem, pd.get_loc.
  destruct (pd.positions_from 0 label (pd.columns df)) eqn:Hpos; [|done].
  by apply positions_from_nil in Hpos.
Qed.

Section no_missing.
Context `{pd.Library}.

Lemma impute_column_no_missing (df df_imputed : pd.DataFrame)
    (strategy : gmap string col_strategy) (default_strategy : col_strategy)
    (column : string) :
  NoDup (pd.columns df) → pd.rectangular df → pd.no_missing df →
  column ∈ pd.columns df →
  impute_column df df_imputed strategy default_strategy column = Ok df_imputed.
Proof.
  intros Hnodup Hrect Hfull Hin. unfold impute_column, pd.getitem, pd.get_loc.
  destruct (positions_from_unique 0 column _ Hnodup Hin) as (j & Hj & ->).
  unfold mbind, result_bind. cbv beta iota.
  rewrite column_at_no_nulls; [done..|]. simpl. by eapply lookup_lt_Some.
Qed.

Lemma impute_loop_no_missing (df df_imputed : pd.DataFrame)
    (strategy : gmap string col_strategy) (default_strategy : col_strategy)
    (cols : list string) :
  NoDup (pd.columns df) → pd.rectangular df → pd.no_missing df →
  cols ⊆ pd.columns df →
  impute_loop df strategy default_strategy cols df_imputed = Ok df_imputed.
Proof.
  intros Hnodup Hrect Hfull. induction cols as [|column cols IH]; intros Hsub; [done|].
  simpl. rewrite impute_column_no_missing by (done || set_solver).
  unfold mbind, result_bind. apply IH. set_solver.
Qed.

(** Where the labels are pairwise distinct, a frame without missing
    values comes back as it is, and so does a second application. *)
Lemma impute_missing_values_no_missing (df : pd.DataFrame)
    (strategy : option (gmap string col_strategy)) (default_strategy : col_strategy) :
  NoDup (pd.columns df) → pd.rectangular df → pd.no_missing df →
  impute_missing_values df strategy default_strategy = Ok df
  ∧ (impute_missing_values df strategy default_strategy
       ≫= λ df', impute_missing_values df' strategy default_strategy)
    = impute_missing_values df strategy default_strategy.
Proof.
  intros Hnodup Hrect Hfull.
  assert (impute_missing_values df strategy default_strategy = Ok df) as Hone.
  { unfold impute_missing_values. by apply impute_loop_no_missing. }
  split; [done|]. rewrite Hone. unfold mbind, result_bind. done.
Qed.

Lemma impute_column_returns (df df_imputed r : pd.DataFrame)
    (strategy : gmap string col_strategy) (default_strategy : col_strategy)
    (column : string) :
  impute_column df df_imputed strategy default_strategy column = Ok r →
  (∃ j, pd.get_loc df column = [j])
  ∧ (r = df_imputed ∨ ∃ s, r = pd.setitem df_imputed column s).
Proof.
  unfold impute_column, pd.getitem.
  destruct (pd.get_loc df column) as [|j [|j' js]]; [done| |done].
  unfold mbind, result_bind. cbn [pd.has_nulls].
  destruct (bool_decide _); intros Hr; (split; [by exists j|]);
    [|left; unfold mret, result_ret in Hr; congruence].
  unfold mret, result_ret in Hr.
  repeat case_match; simplify_eq; right; by eexists.
Qed.

Lemma impute_loop_returns (df df_imputed r : pd.DataFrame)
    (strategy : gmap string col_strategy) (default_strategy : col_strategy)
    (cols : list string) :
  impute_loop df strategy default_strategy cols df_imputed = Ok r →
  cols ⊆ pd.columns df → pd.columns df_imputed = pd.columns df →
  (∀ c, c ∈ cols → ∃ j, pd.get_loc df c = [j]) ∧ pd.columns r = pd.columns df.
Proof.
  revert df_imputed. induction cols as [|column cols IH]; intros df_imputed Hr Hsub Hcols.
  - simpl in Hr. injection Hr as <-. split; [|done]. intros c Hc. by apply elem_of_nil in Hc.
  - simpl in Hr.
    destruct (impute_column df df_imputed strategy default_strategy column) as [df1|] eqn:Hstep;
      [|done].
    apply impute_column_returns in Hstep as [Hloc Hdf1].
    assert (pd.columns df1 = pd.columns df) as Hcols1.
    { destruct Hdf1 as [-> | [s ->]]; [done|].
      rewrite setitem_columns; [done|]. rewrite Hcols. apply Hsub. left. }
    destruct (IH df1 Hr) as [Hlocs Hcolsr];
      [intros c Hc; apply Hsub; by right | done |].
    split; [|done]. intros c Hc. apply elem_of_cons in Hc as [-> | Hc]; [done | by apply Hlocs].
Qed.

(** A frame that [impute_missing_values] returned and that has no missing
    value left comes back as it is from a second application. *)
Lemma impute_missing_values_again (df df' : pd.DataFrame)
    (strategy : option (gmap string col_strategy)) (default_strategy : col_strategy) :
  impute_missing_values df strategy default_strategy = Ok df' →
  pd.rectangular df' → pd.no_missing df' →
  impute_missing_values df' strategy default_strategy = Ok df'.
Proof.
  intros Hfirst Hrect Hfull. unfold impute_missing_values in Hfirst.
  apply impute_loop_returns in Hfirst as [Hlocs Hcols]; [|done..].
  apply impute_missing_values_no_missing; [|done..].
  rewrite Hcols. by apply (single_positions_NoDup 0).
Qed.
(** Forward filling on a frame with one missing cell, whatever pandas'
    statistics are. *)
Example impute_missing_values_ffill :
  impute_missing_values
    {| pd.columns := ["A"; "B"];
       pd.dtypes := [pd.object; pd.object];
       pd.values := [[pd.Str "x"; pd.Str "1"]; [pd.PyNone; pd.Str "2"]] |}
    (Some {[ "A" := Named "ffill" ]}) (Named "mean")
  = Ok {| pd.columns := ["A"; "B"];
          pd.dtypes := [pd.object; pd.object];
          pd.values := [[pd.Str "x"; pd.Str "1"]; [pd.Str "x"; pd.Str "2"]] |}.
Proof. reflexivity. Qed.

(** C7, at an input where the code departs from it. The table with the
    header A, A and the record 1, 2 is scraped into a frame without missing
    values, and [impute_missing_values] raises ValueError on that frame
    instead of returning it. ([impute_missing_values_no_missing] gives the
    claimed behaviour for frames whose labels are pairwise distinct, and
    [impute_missing_values_again] for frames that a first application
    returned.) *)
Theorem impute_raises_on_duplicate_labels
    (strategy : option (gmap string col_strategy)) (default_strategy : col_strategy) :
  web_scraper.manual_table_scraping [examples.duplicate_labels_table]
    = Some examples.duplicate_labels_frame
  ∧ pd.no_missing examples.duplicate_labels_frame
  ∧ impute_missing_values examples.duplicate_labels_frame strategy default_strategy
    = Raise (ValueError pd.ambiguous).
Proof.
  split; [reflexivity|]. split; [|reflexivity].
  repeat constructor.
Qed.
End no_missing.
End missing_values_facts.

(** ** The pipeline *)

Module etl_pipeline_facts.
Import etl_pipeline.

Section facts.
Context `{pd.Library} (web : web_scraper.Web) (cfg : config.Config).

Lemma extract_returns_iff (source : string) (st : state) :
  (∃ df, (extract web source st).1.1 = Ok df) ↔ source = "web_scraping".
Proof.
  unfold extract. case_decide; simpl; split; try done.
  - by eexists.
  - by intros [? ?].
Qed.

Lemma extract_raise_state (source : string) (st : state) (e : exception) :
  (extract web source st).1.1 = Raise e → (extract web source st).1.2 = st.
Proof. unfold extract. by case_decide. Qed.

Lemma extract_ok_state (source : string) (st : state) (df : pd.DataFrame) :
  (extract web source st).1.1 = Ok df →
  raw_data (self (extract web source st).1.2) = Some df.
Proof. unfold extract. case_decide; simpl; [|done]. by intros [= ->]. Qed.

Lemma transform_raw_data (ts : list transformation) (st : state) :
  raw_data (self (transform ts st).1.2) = raw_data (self st).
Proof.
  unfold transform. destruct (raw_data (self st)) as [raw|] eqn:Hraw; [|done].
  destruct (transform_loop ts (pd.copy raw)) as [[r df] l].
  by destruct r.
Qed.

Lemma load_raw_data (destination : string) (kwargs : load_kwargs) (st : state) :
  raw_data (self (load cfg destination kwargs st).1.2) = raw_data (self st).
Proof.
  unfold load. destruct (transformed_data (self st)) as [df|]; [|done].
  case_decide; [|done].
  destruct (to_postgres.__init__ _ _ _) as [ldr|]; [|done].
  destruct (to_postgres.load_dataframe _ _ _ _ _) as [[[success|] ldr'] pg]; [|done].
  done.
Qed.

(** A transform that finds no extracted data raises ValueError and
    changes nothing. *)
Lemma transform_without_raw_data (ts : list transformation) (st : state) :
  raw_data (self st) = None →
  transform ts st =
    (Raise (ValueError "Aucune donnée à transformer. Exécutez d'abord extract()."),
     st, []).
Proof. intros Hraw. unfold transform. by rewrite Hraw. Qed.

Lemma perform_keeps_raw_data_None (c : method_call) (st : state) :
  raw_data (self st) = None → extract_returns web c st = false →
  raw_data (self (perform web cfg c st)) = None.
Proof.
  intros Hraw Hret. destruct c as [source|ts|destination kwargs|source ts destination kwargs];
    simpl in *.
  - destruct (extract web source st).1.1 as [df|e] eqn:Hex; [done|].
    by rewrite (extract_raise_state _ _ _ Hex).
  - by rewrite transform_raw_data.
  - by rewrite load_raw_data.
  - unfold run_pipeline.
    destruct (extract web source st) as [[[df|e] st'] l] eqn:Hex; simpl in *; [done|].
    pose proof (extract_raise_state source st e) as Hst. rewrite Hex in Hst.
    simpl in Hst. by rewrite Hst.
Qed.

Lemma never_extracted_raw_data_None (history : list method_call) (st : state) :
  raw_data (self st) = None → never_extracted web cfg history st →
  raw_data (self (after web cfg history st)) = None.
Proof.
  revert st. induction history as [|c history IH]; intros st Hraw Hnever; [done|].
  destruct Hnever as [Hret Hnever]. simpl. apply IH; [|done].
  by apply perform_keeps_raw_data_None.
Qed.

(** C8. On a pipeline object on which no extract has returned so far,
    whatever other calls were made, raw_data is None and [transform] raises
    ValueError (a state-precondition error, not an AttributeError on None),
    logs nothing and leaves the object and the database unchanged. *)
Theorem transform_before_extract (history : list method_call)
    (pg : to_postgres.Postgres) (ts : list transformation) :
  let new := {| self := ETLPipeline_; postgres := pg |} in
  never_extracted web cfg history new →
  raw_data (self (after web cfg history new)) = None
  ∧ transform ts (after web cfg history new) =
      (Raise (ValueError "Aucune donnée à transformer. Exécutez d'abord extract()."),
       after web cfg history new, []).
Proof.
  intros new Hnever.
  assert (raw_data (self (after web cfg history new)) = None) as Hraw
    by (by apply never_extracted_raw_data_None).
  split; [done|]. by apply transform_without_raw_data.
Qed.

(** *** Unrecognized steps *)

Lemma apply_unrecognized (name : string) (p : option params) (df : pd.DataFrame) :
  name ∉ recognized →
  apply_transformation df {| function := Some name; step_params := p |} =
    (Ok df, [info ("Application de la transformation: " +:+ name);
             warning ("Transformation non reconnue: " +:+ name)]).
Proof.
  intros Hname. unfold apply_transformation. cbn [function step_params].
  unfold recognized in Hname.
  rewrite !decide_False; [done | set_solver..].
Qed.

Lemma transform_loop_app (ts1 ts2 : list transformation) (df : pd.DataFrame) :
  transform_loop (ts1 ++ ts2) df =
    match transform_loop ts1 df with
    | (Ok _, df1, l1) =>
      let '(r, df2, l2) := transform_loop ts2 df1 in (r, df2, l1 ++ l2)
    | (Raise e, df1, l1) => (Raise e, df1, l1)
    end.
Proof.
  revert df. induction ts1 as [|t ts1 IH]; intros df; simpl.
  - by destruct (transform_loop ts2 df) as [[r df2] l2].
  - destruct (apply_transformation df t) as [[df'|e] l]; [|done].
    rewrite IH. destruct (transform_loop ts1 df') as [[[[]|e] df1] l1]; [|done].
    destruct (transform_loop ts2 df1) as [[r df2] l2]. by rewrite app_assoc.
Qed.

(** C9. A step whose name is none of the four recognized ones is logged
    with a warning and returns the table unchanged without raising; the loop
    and [transform] then end with the same outcome and the same data as for
    the list without that step, so the steps after it are applied in
    order. *)
Theorem unrecognized_step_is_skipped (name : string) (p : option params) :
  name ∉ recognized →
  let t := {| function := Some name; step_params := p |} in
  (∀ df, apply_transformation df t =
           (Ok df, [info ("Application de la transformation: " +:+ name);
                    warning ("Transformation non reconnue: " +:+ name)]))
  ∧ (∀ before following df,
       (transform_loop (before ++ t :: following) df).1
       = (transform_loop (before ++ following) df).1)
  ∧ (∀ before following st,
       (transform (before ++ t :: following) st).1
       = (transform (before ++ following) st).1).
Proof.
  intros Hname t.
  assert (∀ ts df, (transform_loop (t :: ts) df).1 = (transform_loop ts df).1) as Hcons.
  { intros ts df. simpl. unfold t. rewrite apply_unrecognized by done.
    by destruct (transform_loop ts df) as [[r df'] l]. }
  assert (∀ before following df,
            (transform_loop (before ++ t :: following) df).1
            = (transform_loop (before ++ following) df).1) as Hloop.
  { intros before following df. rewrite !transform_loop_app.
    destruct (transform_loop before df) as [[[[]|e] df1] l1]; [|done].
    specialize (Hcons following df1).
    destruct (transform_loop (t :: following) df1) as [[r2 df2] l2].
    destruct (transform_loop following df1) as [[r2' df2'] l2'].
    simpl in *. congruence. }
  split; [intros df; by apply apply_unrecognized|].
  split; [done|].
  intros before following st. unfold transform.
  destruct (raw_data (self st)) as [raw|]; [|done].
  specialize (Hloop before following (pd.copy raw)).
  destruct (transform_loop (before ++ t :: following) _) as [[r df] l].
  destruct (transform_loop (before ++ following) _) as [[r' df'] l'].
  simpl in Hloop. injection Hloop as -> ->. by destruct r'.
Qed.


(** *** Empty frames *)

Lemma encode_loop_no_columns (df acc : pd.DataFrame) (drop_first : bool)
    (cols : list string) :
  pd.columns df = [] → encoding.encode_loop df drop_first cols acc = Ok acc.
Proof.
  intros Hcols. induction cols as [|column cols IH]; [done|].
  simpl. unfold encoding.encode_column. rewrite Hcols.
  rewrite decide_False by apply not_elem_of_nil. exact IH.
Qed.

(** On the frame without rows and columns a step returns that frame or
    raises. *)
Lemma apply_transformation_empty (t : transformation) (df : pd.DataFrame)
    (l : list log_record) :
  apply_transformation pd.DataFrame_ t = (Ok df, l) → df = pd.DataFrame_.
Proof.
  unfold apply_transformation. destruct (function t) as [func_name|]; [|done].
  repeat case_decide.
  - destruct (check_keywords _ _ _) as [[]|]; [|done]. by intros [= <- _].
  - destruct (check_keywords _ _ _) as [[]|]; [|done].
    unfold mbind, result_bind, encoding.one_hot_encode.
    rewrite encode_loop_no_columns by done. by intros [= <- _].
  - destruct (check_keywords _ _ _ ≫= _) as [r|]; [|done]. by intros [= <- _].
  - destruct (check_keywords _ _ _) as [[]|]; [|done].
    destruct (date_column _) as [c|]; [|done]. by intros [= <- _].
  - by intros [= <- _].
Qed.

Lemma transform_loop_empty (ts : list transformation) :
  (transform_loop ts pd.DataFrame_).1.2 = pd.DataFrame_.
Proof.
  induction ts as [|t ts IH]; [done|]. simpl.
  destruct (apply_transformation pd.DataFrame_ t) as [[df|e] l] eqn:Hstep; [|done].
  apply apply_transformation_empty in Hstep as ->.
  by destruct (transform_loop ts pd.DataFrame_) as [[r df'] l'].
Qed.

Lemma load_dataframe_empty (ldr : to_postgres.PostgreSQLLoader) (df : pd.DataFrame)
    (table_name if_exists : string) (pg : to_postgres.Postgres) :
  pd.empty df = true →
  to_postgres.load_dataframe ldr df table_name if_exists pg = (Ok false, ldr, pg).
Proof. intros Hempty. unfold to_postgres.load_dataframe. by rewrite Hempty. Qed.

Lemma load_empty (destination : string) (kwargs : load_kwargs) (st : state)
    (df : pd.DataFrame) :
  transformed_data (self st) = Some df → pd.empty df = true →
  (load cfg destination kwargs st).1.1 ≠ Ok true
  ∧ postgres (load cfg destination kwargs st).1.2 = postgres st.
Proof.
  intros Hdata Hempty. unfold load. rewrite Hdata.
  case_decide; [|done].
  destruct (to_postgres.__init__ _ _ _) as [ldr|]; [|done].
  by rewrite load_dataframe_empty.
Qed.

(** A run whose extraction gave the empty frame ends with False and
    leaves the database as it was. *)
Lemma run_pipeline_empty (source destination : string)
    (ts : option (list transformation)) (kwargs : option load_kwargs) (st : state) :
  web_scraper.scrape_cacao_ratings web = pd.DataFrame_ →
  (run_pipeline web cfg source ts destination kwargs st).1.1 = false
  ∧ postgres (run_pipeline web cfg source ts destination kwargs st).1.2 = postgres st.
Proof.
  intros Hscrape. unfold run_pipeline, extract. rewrite Hscrape.
  case_decide; [|done].
  unfold transform. cbn [self set_raw_data raw_data]. unfold pd.copy.
  pose proof (transform_loop_empty (default default_transformations ts)) as Hloop.
  destruct (transform_loop _ pd.DataFrame_) as [[r df] l]. simpl in Hloop. subst df.
  destruct r as [[]|e]; [|done].
  match goal with
  | |- context [load cfg destination ?k ?s] =>
    destruct (load_empty destination k s pd.DataFrame_ eq_refl eq_refl) as [Hres Hpg];
    destruct (load cfg destination k s) as [[[[]|e] st'] l']
  end; done.
Qed.

(** C10. For a frame with zero rows [load_dataframe] returns False and
    leaves the loader and the database (tables and to_sql calls) as they
    were; and a run of [run_pipeline] whose extraction returned such a frame
    returns False with the database unchanged. *)
Theorem empty_table_is_not_loaded (df : pd.DataFrame) :
  length (pd.values df) = 0 →
  (∀ ldr table_name if_exists pg,
     to_postgres.load_dataframe ldr df table_name if_exists pg = (Ok false, ldr, pg))
  ∧ (∀ source ts destination kwargs st,
       (extract web source st).1.1 = Ok df →
       (run_pipeline web cfg source ts destination kwargs st).1.1 = false
       ∧ postgres (run_pipeline web cfg source ts destination kwargs st).1.2
         = postgres st).
Proof.
  intros Hrows.
  assert (pd.empty df = true) as Hempty by (unfold pd.empty; by rewrite Hrows).
  split; [intros; by apply load_dataframe_empty|].
  intros source ts destination kwargs st Hextract.
  apply run_pipeline_empty.
  unfold extract in Hextract. case_decide; [|done]. simpl in Hextract.
  injection Hextract as <-. by apply web_scraper_facts.scrape_cacao_ratings_empty.
Qed.

(** C2, amended. When the request fails, or the parser raises,
    [scrape_cacao_ratings] catches the exception and returns pd.DataFrame();
    [extract] returns that empty frame and stores it as raw_data without
    raising, and [run_pipeline] ends with False. *)
Theorem fetch_failure_becomes_empty_frame (st : state) :
  (∃ e, web_scraper.requests_get web web_scraper.url = Raise e)
  ∨ (∃ content e, web_scraper.requests_get web web_scraper.url = Ok content
                  ∧ web_scraper.html_parser web content = Raise e) →
  web_scraper.scrape_cacao_ratings web = pd.DataFrame_
  ∧ (extract web "web_scraping" st).1 = (Ok pd.DataFrame_, set_raw_data st pd.DataFrame_)
  ∧ (∀ ts destination kwargs,
       (run_pipeline web cfg "web_scraping" ts destination kwargs st).1.1 = false).
Proof.
  intros Hfail. apply web_scraper_facts.scrape_cacao_ratings_failed in Hfail.
  split; [done|]. split.
  - unfold extract. rewrite decide_True by done. by rewrite Hfail.
  - intros ts destination kwargs. by apply run_pipeline_empty.
Qed.

End facts.

Lemma transform_before_extract_witness :
  let history := [call_extract "csv"; call_transform []] in
  let st := after examples.unreachable config.defaults history examples.fresh
              (H := examples.bare_pandas) in
  raw_data (self st) = None
  ∧ transform (H := examples.bare_pandas) default_transformations st =
      (Raise (ValueError "Aucune donnée à transformer. Exécutez d'abord extract()."),
       st, []).
Proof.
  apply (transform_before_extract (H := examples.bare_pandas)
           examples.unreachable config.defaults
           [call_extract "csv"; call_transform []] examples.server
           default_transformations).
  simpl. repeat split; reflexivity.
Defined.

Lemma unrecognized_step_is_skipped_witness :
  let t := {| function := Some "scale"; step_params := None |} in
  (∀ df, apply_transformation (H := examples.bare_pandas) df t =
           (Ok df, [info "Application de la transformation: scale";
                    warning "Transformation non reconnue: scale"]))
  ∧ (∀ before following df,
       (transform_loop (H := examples.bare_pandas) (before ++ t :: following) df).1
       = (transform_loop (H := examples.bare_pandas) (before ++ following) df).1)
  ∧ (∀ before following st,
       (transform (H := examples.bare_pandas) (before ++ t :: following) st).1
       = (transform (H := examples.bare_pandas) (before ++ following) st).1).
Proof.
  apply (unrecognized_step_is_skipped (H := examples.bare_pandas) "scale" None).
  unfold recognized. rewrite !not_elem_of_cons.
  repeat split; try discriminate. apply not_elem_of_nil.
Defined.

Lemma empty_table_is_not_loaded_witness :
  (∀ ldr table_name if_exists pg,
     to_postgres.load_dataframe ldr pd.DataFrame_ table_name if_exists pg
     = (Ok false, ldr, pg))
  ∧ (run_pipeline (H := examples.bare_pandas) examples.unreachable config.defaults
       "web_scraping" None "postgres" None examples.fresh).1.1 = false
  ∧ postgres (run_pipeline (H := examples.bare_pandas) examples.unreachable
                config.defaults "web_scraping" None "postgres" None examples.fresh).1.2
    = examples.server.
Proof.
  destruct (empty_table_is_not_loaded (H := examples.bare_pandas)
              examples.unreachable config.defaults pd.DataFrame_ eq_refl)
    as [Hload Hrun].
  split; [exact Hload|].
  apply (Hrun "web_scraping" None "postgres" None examples.fresh). reflexivity.
Defined.

(** C2 as stated fails: with an unreachable site, and with a page the
    parser rejects, [extract] returns the empty frame as a normal result,
    and [transform] then goes on with it. *)
Lemma network_failure_is_swallowed :
  (extract examples.unreachable "web_scraping" examples.fresh).1.1 = Ok pd.DataFrame_
  ∧ (extract examples.unparsable "web_scraping" examples.fresh).1.1 = Ok pd.DataFrame_
  ∧ (transform (H := examples.bare_pandas) []
       (extract examples.unreachable "web_scraping" examples.fresh).1.2).1.1
    = Ok pd.DataFrame_.
Proof. repeat split; reflexivity. Qed.

Lemma fetch_failure_becomes_empty_frame_witness :
  web_scraper.scrape_cacao_ratings examples.unreachable = pd.DataFrame_
  ∧ (extract examples.unreachable "web_scraping" examples.fresh).1
    = (Ok pd.DataFrame_, set_raw_data examples.fresh pd.DataFrame_)
  ∧ (∀ ts destination kwargs,
       (run_pipeline (H := examples.bare_pandas) examples.unreachable config.defaults
          "web_scraping" ts destination kwargs examples.fresh).1.1 = false).
Proof.
  apply (fetch_failure_becomes_empty_frame (H := examples.bare_pandas)
           examples.unreachable config.defaults examples.fresh).
  left. by eexists.
Defined.

End etl_pipeline_facts.

(** ** Further properties of the pipeline *)

Module etl_pipeline_more.
Import etl_pipeline statements.




Section more.
Context `{pd.Library} (web : web_scraper.Web) (cfg : config.Config).

Lemma extract_keeps (source : string) (st : state) :
  transformed_data (self (extract web source st).1.2) = transformed_data (self st)
  ∧ loader (self (extract web source st).1.2) = loader (self st)
  ∧ postgres (extract web source st).1.2 = postgres st.
Proof. unfold extract. by case_decide. Qed.

Lemma transform_keeps (ts : list transformation) (st : state) :
  raw_data (self (transform ts st).1.2) = raw_data (self st)
  ∧ loader (self (transform ts st).1.2) = loader (self st)
  ∧ postgres (transform ts st).1.2 = postgres st.
Proof.
  unfold transform. destruct (raw_data (self st)) as [raw|] eqn:Hraw.
  - destruct (transform_loop ts (pd.copy raw)) as [[r df] l].
    by destruct r; cbn; rewrite Hraw.
  - simpl. by rewrite Hraw.
Qed.

(** X1. [extract] knows one source. For "web_scraping" it returns what
    [scrape_cacao_ratings] returns and stores it in raw_data; for any other
    source it raises ValueError with the message "Source non supportée:"
    followed by the source, and changes nothing. In neither case does it
    touch transformed_data, the loader or the database. *)
Theorem extract_outcomes (source : string) (st : state) :
  (source = "web_scraping" →
     (extract web source st).1 =
       (Ok (web_scraper.scrape_cacao_ratings web),
        set_raw_data st (web_scraper.scrape_cacao_ratings web)))
  ∧ (source ≠ "web_scraping" →
       (extract web source st).1 =
         (Raise (ValueError ("Source non supportée: " +:+ source)), st))
  ∧ transformed_data (self (extract web source st).1.2) = transformed_data (self st)
  ∧ loader (self (extract web source st).1.2) = loader (self st)
  ∧ postgres (extract web source st).1.2 = postgres st.
Proof.
  unfold extract. case_decide; simpl; repeat split; done.
Qed.

(** X2. [load] raises ValueError and leaves the object and the database as
    they were when transformed_data is None, or when the destination is not
    "postgres". *)
Theorem load_refuses (destination : string) (kwargs : load_kwargs) (st : state) :
  transformed_data (self st) = None ∨ destination ≠ "postgres" →
  ∃ msg, (load cfg destination kwargs st).1 = (Raise (ValueError msg), st).
Proof.
  intros Hcase. unfold load.
  destruct (transformed_data (self st)) as [df|] eqn:Hdata.
  - destruct Hcase as [? | Hdest]; [done|].
    rewrite decide_False by done. by eexists.
  - by eexists.
Qed.



(** X5. [transform] changes neither raw_data, nor the loader, nor the
    database; the frame it returns is the one it stores in transformed_data;
    and with an empty list of transformations it returns the raw data as
    they are. *)
Theorem transform_frame (ts : list transformation) (st : state) :
  let st' := (transform ts st).1.2 in
  raw_data (self st') = raw_data (self st)
  ∧ loader (self st') = loader (self st)
  ∧ postgres st' = postgres st
  ∧ (∀ df, (transform ts st).1.1 = Ok df → transformed_data (self st') = Some df)
  ∧ (ts = [] → ∀ raw, raw_data (self st) = Some raw →
       (transform ts st).1.1 = Ok raw).
Proof.
  intros st'. subst st'. unfold transform.
  destruct (raw_data (self st)) as [raw|] eqn:Hraw.
  - destruct (transform_loop ts (pd.copy raw)) as [[r df] l] eqn:Hloop.
    destruct r as [[]|e]; cbn [fst snd self postgres set_transformed_data
                                raw_data loader transformed_data].
    + repeat split; try done.
      * by intros df' [= ->].
      * intros -> raw' [= <-]. simpl in Hloop. by injection Hloop as <- _.
    + repeat split; try done.
      intros -> raw' [= <-]. simpl in Hloop. by injection Hloop as ? _.
  - simpl. rewrite Hraw. repeat split; done.
Qed.

Lemma extract_in_order (source : string) (st : state) :
  in_order (self st) → in_order (self (extract web source st).1.2).
Proof.
  intros [H1 H2]. unfold extract. case_decide; [|done].
  split; cbn; [done | exact H2].
Qed.

Lemma transform_in_order (ts : list transformation) (st : state) :
  in_order (self st) → in_order (self (transform ts st).1.2).
Proof.
  intros Hst. unfold transform.
  destruct (raw_data (self st)) as [raw|] eqn:Hraw; [|exact Hst].
  destruct Hst as [H1 H2].
  destruct (transform_loop ts (pd.copy raw)) as [[r df] l].
  destruct r; (split; cbn; [intros _; by rewrite Hraw | done]).
Qed.

Lemma load_in_order (destination : string) (kwargs : load_kwargs) (st : state) :
  in_order (self st) → in_order (self (load cfg destination kwargs st).1.2).
Proof.
  intros Hst. unfold load.
  destruct (transformed_data (self st)) as [df|] eqn:Hdata; [|exact Hst].
  case_decide; [|exact Hst].
  destruct (to_postgres.__init__ _ _ _) as [ldr|]; [|exact Hst].
  destruct Hst as [H1 H2].
  destruct (to_postgres.load_dataframe _ _ _ _ _) as [[[success|e] ldr'] pg];
    (split; cbn; [exact H1 | intros _; by rewrite Hdata]).
Qed.

Lemma run_pipeline_in_order (source destination : string)
    (ts : option (list transformation)) (kwargs : option load_kwargs) (st : state) :
  in_order (self st) →
  in_order (self (run_pipeline web cfg source ts destination kwargs st).1.2).
Proof.
  intros Hst. unfold run_pipeline.
  pose proof (extract_in_order source st Hst) as H1.
  destruct (extract web source st) as [[[df|e] st1] l1]; [|done].
  pose proof (transform_in_order (default default_transformations ts) st1 H1) as H2.
  destruct (transform _ st1) as [[[df2|e] st2] l2]; [|done].
  match goal with
  | |- context [load cfg destination ?k st2] =>
    pose proof (load_in_order destination k st2 H2) as H3;
    destruct (load cfg destination k st2) as [[[success|e] st3] l3]
  end; done.
Qed.

(** X6. Whatever methods are called on a new pipeline object, in whatever
    order and whether they return or raise, transformed_data is set only when
    raw_data is, and the loader only when transformed_data is. *)
Theorem attributes_set_in_order (history : list method_call)
    (pg : to_postgres.Postgres) :
  let p := self (after web cfg history {| self := ETLPipeline_; postgres := pg |}) in
  (transformed_data p ≠ None → raw_data p ≠ None)
  ∧ (loader p ≠ None → transformed_data p ≠ None).
Proof.
  assert (∀ st, in_order (self st) → in_order (self (after web cfg history st))) as Hall.
  { induction history as [|c history IH]; intros st Hst; [done|].
    simpl. apply IH. destruct c; simpl.
    - by apply extract_in_order.
    - by apply transform_in_order.
    - by apply load_in_order.
    - by apply run_pipeline_in_order. }
  apply Hall. by split.
Qed.


(** X7. A sequence of calls of [extract] and [transform] only, whatever they
    return or raise, leaves the database as it was. *)
Theorem only_load_writes (history : list method_call) (st : state) :
  Forall (λ c, match c with
               | call_extract _ | call_transform _ => True
               | call_load _ _ | call_run_pipeline _ _ _ _ => False
               end) history →
  postgres (after web cfg history st) = postgres st.
Proof.
  revert st. induction history as [|c history IH]; intros st Hcalls; [done|].
  apply Forall_cons_1 in Hcalls as [Hc Hcalls]. simpl.
  rewrite IH by done. destruct c; simpl; try done.
  - apply extract_keeps.
  - apply transform_keeps.
Qed.

Lemma transform_loop_default (df : pd.DataFrame) :
  ∃ e df', (transform_loop default_transformations df).1 = (Raise e, df').
Proof.
  unfold default_transformations. simpl.
  destruct (missing_values.impute_missing_values _ _ _) as [df1|e1]; [|by eexists _, _].
  destruct (encoding.one_hot_encode _ _ _) as [df2|e2]; [|by eexists _, _].
  by eexists _, _.
Qed.

Lemma transform_default_raises (st : state) :
  ∃ e, (transform default_transformations st).1.1 = Raise e.
Proof.
  unfold transform. destruct (raw_data (self st)) as [raw|]; [|by eexists].
  destruct (transform_loop_default (pd.copy raw)) as (e & df' & Hloop).
  destruct (transform_loop default_transformations (pd.copy raw)) as [[r df''] l].
  simpl in Hloop. injection Hloop as -> ->. by eexists.
Qed.

(** X8. [run_pipeline] called without transformations always returns False:
    the default list ends with a validate_data step with no parameters, and
    validate_data_types requires expected_types, so [transform] raises (at
    that step with TypeError, if not earlier) and [load] is never reached.
    The database and the loader are as before. *)
Theorem default_run_fails (source destination : string)
    (kwargs : option load_kwargs) (st : state) :
  (run_pipeline web cfg source None destination kwargs st).1.1 = false
  ∧ postgres (run_pipeline web cfg source None destination kwargs st).1.2 = postgres st
  ∧ loader (self (run_pipeline web cfg source None destination kwargs st).1.2)
    = loader (self st).
Proof.
  unfold run_pipeline.
  pose proof (extract_keeps source st) as (_ & Hldr & Hpg).
  destruct (extract web source st) as [[[df|e] st1] l1]; simpl in *; [|done].
  pose proof (transform_keeps default_transformations st1) as (_ & Hldr2 & Hpg2).
  destruct (transform_default_raises st1) as [e He].
  destruct (transform default_transformations st1) as [[r st2] l2].
  simpl in *. subst r. simpl. by rewrite Hpg2, Hldr2.
Qed.
End more.

Lemma load_refuses_witness :
  ∃ msg,
    (etl_pipeline.load config.defaults "postgres" examples_more.no_kwargs
       examples.fresh).1
    = (Raise (ValueError msg), examples.fresh).
Proof.
  apply (load_refuses config.defaults "postgres" examples_more.no_kwargs examples.fresh).
  left. reflexivity.
Defined.


Lemma only_load_writes_witness :
  etl_pipeline.postgres
    (etl_pipeline.after (H := examples.bare_pandas) examples.unreachable
       config.defaults
       [etl_pipeline.call_extract "web_scraping"; etl_pipeline.call_transform []]
       examples.fresh)
  = examples.server.
Proof.
  apply (only_load_writes (H := examples.bare_pandas)
           examples.unreachable config.defaults
           [etl_pipeline.call_extract "web_scraping"; etl_pipeline.call_transform []]
           examples.fresh).
  repeat constructor.
Defined.

End etl_pipeline_more.

(** ** Scraped frames and their imputation *)

Module scraped_frames.
Import web_scraper web_scraper_facts missing_values missing_values_facts statements.

Lemma frame_of_clean (row0 : list string) (rest : list (list string)) :
  let df := frame_of row0 rest in
  all_str df ∧ pd.rectangular df
  ∧ pd.dtypes df = replicate (length (pd.columns df)) pd.object.
Proof.
  unfold frame_of, all_str, pd.rectangular.
  destruct (usable_headers row0); cbn [pd.values pd.columns pd.dtypes];
    rewrite ?positional_headers_length; (split; [|split; [|done]]).
  all: apply Forall_fmap, Forall_true; intros r; simpl.
  1,3: apply Forall_fmap, Forall_true; intros s; simpl; by eexists.
  all: by rewrite length_fmap, normalize_row_length.
Qed.

Lemma all_str_no_missing (df : pd.DataFrame) : all_str df → pd.no_missing df.
Proof.
  unfold all_str, pd.no_missing. intros Hall.
  eapply Forall_impl; [exact Hall|]. intros r Hr.
  eapply Forall_impl; [exact Hr|]. by intros c [s ->].
Qed.

Lemma candidate_frame_of (t : table) (df : pd.DataFrame) :
  candidate t = Some df →
  ∃ row0 rest, rows_with_cells t = row0 :: rest ∧ rest ≠ [] ∧ df = frame_of row0 rest.
Proof.
  unfold candidate. intros Hdf.
  destruct (rows_with_cells t) as [|row0 [|row1 rest]] eqn:Hdata.
  - rewrite table_frame_short in Hdf; [done | rewrite Hdata; simpl; lia].
  - rewrite table_frame_short in Hdf; [done | rewrite Hdata; simpl; lia].
  - rewrite (table_frame_candidate t row0 (row1 :: rest)) in Hdf by done.
    injection Hdf as <-. by exists row0, (row1 :: rest).
Qed.

Lemma manual_table_scraping_Some (soup : BeautifulSoup) (df : pd.DataFrame) :
  manual_table_scraping soup = Some df → ∃ t, t ∈ soup ∧ candidate t = Some df.
Proof.
  rewrite (manual_table_scraping_eq soup _ (tables_loop_candidates soup [])).
  simpl. destruct (omap candidate soup) as [|first rest] eqn:Hcands; [done|].
  intros [= <-].
  destruct (py_max_first_largest area first rest) as (i & Hi & _).
  apply list_elem_of_lookup_2 in Hi. rewrite <- Hcands in Hi.
  by apply list_elem_of_omap in Hi.
Qed.

(** X9. A frame returned by [manual_table_scraping] has only str cells, no
    missing cell, one cell per label in every record, object columns only,
    and is not empty. *)
Theorem scraped_frame_is_clean (soup : BeautifulSoup) (df : pd.DataFrame) :
  manual_table_scraping soup = Some df →
  all_str df ∧ pd.no_missing df ∧ pd.rectangular df
  ∧ pd.dtypes df = replicate (length (pd.columns df)) pd.object
  ∧ pd.empty df = false.
Proof.
  intros Hdf. destruct (manual_table_scraping_Some soup df Hdf) as (t & _ & Ht).
  destruct (candidate_frame_of t df Ht) as (row0 & rest & Hdata & Hrest & ->).
  destruct (frame_of_clean row0 rest) as (Hstr & Hrect & Hdtypes).
  repeat split; try done; [by apply all_str_no_missing|].
  apply (table_frame_Some_nonempty t). by apply table_frame_candidate.
Qed.

Lemma positions_from_bounds (i j : nat) (label : string) (cols : list string) :
  j ∈ pd.positions_from i label cols → i ≤ j < i + length cols.
Proof.
  revert i. induction cols as [|c cols IH]; intros i Hj; simpl in *.
  - by apply elem_of_nil in Hj.
  - case_decide.
    + apply elem_of_cons in Hj as [-> | Hj]; [lia|]. apply IH in Hj. lia.
    + apply IH in Hj. lia.
Qed.

Section clean.
Context `{pd.Library}.

(** On a frame without missing values the loop either passes over every
    column, each label being unique, or stops on a duplicated label. *)
Lemma impute_loop_clean (df acc : pd.DataFrame)
    (strategy : gmap string col_strategy) (default_strategy : col_strategy)
    (cols : list string) :
  pd.rectangular df → pd.no_missing df → cols ⊆ pd.columns df →
  (impute_loop df strategy default_strategy cols acc = Ok acc
   ∧ ∀ c, c ∈ cols → ∃ j, pd.get_loc df c = [j])
  ∨ impute_loop df strategy default_strategy cols acc = Raise (ValueError pd.ambiguous).
Proof.
  intros Hrect Hfull. induction cols as [|column cols IH]; intros Hsub.
  - left. split; [done|]. intros c Hc. by apply elem_of_nil in Hc.
  - destruct (pd.get_loc df column) as [|j [|j' js]] eqn:Hloc.
    + apply positions_from_nil in Hloc. destruct Hloc. apply Hsub. left.
    + assert (impute_column df acc strategy default_strategy column = Ok acc) as Hstep.
      { unfold impute_column, pd.getitem. rewrite Hloc.
        unfold mbind, result_bind. cbv beta iota.
        rewrite column_at_no_nulls; [done..|].
        assert (j ∈ pd.get_loc df column) as Hj by (rewrite Hloc; left).
        apply positions_from_bounds in Hj. lia. }
      simpl. rewrite Hstep. unfold mbind, result_bind.
      destruct IH as [[Hok Hsingle] | Hraise]; [intros c Hc; apply Hsub; by right | |].
      * left. split; [done|]. intros c Hc.
        apply elem_of_cons in Hc as [-> | Hc]; [by exists j | by apply Hsingle].
      * by right.
    + right. simpl. unfold impute_column, pd.getitem. by rewrite Hloc.
Qed.

Lemma impute_clean_duplicate (df : pd.DataFrame)
    (strategy : option (gmap string col_strategy)) (default_strategy : col_strategy) :
  pd.rectangular df → pd.no_missing df → ¬ NoDup (pd.columns df) →
  impute_missing_values df strategy default_strategy = Raise (ValueError pd.ambiguous).
Proof.
  intros Hrect Hfull Hdup. unfold impute_missing_values.
  destruct (impute_loop_clean df (pd.copy df) (default ∅ strategy) default_strategy
              (pd.columns df) Hrect Hfull) as [[_ Hsingle] | Hraise]; [done| |done].
  destruct Hdup. by apply (single_positions_NoDup 0).
Qed.

(** X10. On a frame without missing cells whose records have one cell per
    label, [impute_missing_values] returns the frame unchanged, whatever the
    strategies, when the labels are distinct; with a duplicated label it
    raises ValueError (the truth value of a Series is ambiguous). *)
Theorem impute_without_missing (df : pd.DataFrame)
    (strategy : option (gmap string col_strategy)) (default_strategy : col_strategy) :
  pd.rectangular df → pd.no_missing df →
  (NoDup (pd.columns df) →
     impute_missing_values df strategy default_strategy = Ok df)
  ∧ (¬ NoDup (pd.columns df) →
       impute_missing_values df strategy default_strategy
       = Raise (ValueError pd.ambiguous)).
Proof.
  intros Hrect Hfull. split.
  - intros Hnodup. by apply impute_missing_values_no_missing.
  - by apply impute_clean_duplicate.
Qed.
End clean.

Lemma scraped_frame_is_clean_witness :
  statements.all_str examples_more.small_frame ∧ pd.no_missing examples_more.small_frame
  ∧ pd.rectangular examples_more.small_frame
  ∧ pd.dtypes examples_more.small_frame
    = replicate (length (pd.columns examples_more.small_frame)) pd.object
  ∧ pd.empty examples_more.small_frame = false.
Proof.
  apply (scraped_frame_is_clean [examples.small_table]).
  reflexivity.
Defined.

Lemma impute_without_missing_witness :
  missing_values.impute_missing_values (H := examples.bare_pandas)
    examples_more.small_frame None (missing_values.Named "mean")
  = Ok examples_more.small_frame.
Proof.
  apply (impute_without_missing (H := examples.bare_pandas)
           examples_more.small_frame None (missing_values.Named "mean")).
  - repeat constructor.
  - repeat constructor.
  - apply (bool_decide_unpack _). exact I.
Defined.

End scraped_frames.

(** ** The pipeline from end to end *)

Module end_to_end.
Import etl_pipeline statements.

Lemma scraped_frame_of (soup : web_scraper.BeautifulSoup) (df : pd.DataFrame) :
  web_scraper.manual_table_scraping soup = Some df →
  pd.empty df = false ∧ ∃ row0 rest, df = web_scraper.frame_of row0 rest.
Proof.
  intros Hdf.
  destruct (scraped_frames.manual_table_scraping_Some soup df Hdf) as (t & _ & Ht).
  destruct (scraped_frames.candidate_frame_of t df Ht) as (row0 & rest & Hdata & Hrest & ->).
  split; [|by eexists _, _].
  apply (web_scraper_facts.table_frame_Some_nonempty t).
  by apply web_scraper_facts.table_frame_candidate.
Qed.

Lemma scrape_clean (web : web_scraper.Web) :
  all_str (web_scraper.scrape_cacao_ratings web)
  ∧ pd.rectangular (web_scraper.scrape_cacao_ratings web).
Proof.
  assert (all_str pd.DataFrame_ ∧ pd.rectangular pd.DataFrame_) as Hnew
    by (split; constructor).
  unfold web_scraper.scrape_cacao_ratings.
  destruct (web_scraper.requests_get web web_scraper.url) as [content|e];
    unfold mbind, result_bind; [|by destruct (is_RequestException e)].
  destruct (web_scraper.html_parser web content) as [soup|e];
    [|by destruct (is_RequestException e)].
  destruct (web_scraper.manual_table_scraping soup) as [df|] eqn:Hdf; [|done].
  destruct (pd.empty df); [done|]. simpl.
  destruct (scraped_frame_of soup df Hdf) as (_ & row0 & rest & ->).
  by destruct (scraped_frames.frame_of_clean row0 rest) as (? & ? & _).
Qed.


Section runs.
Context `{pd.Library} (web : web_scraper.Web) (cfg : config.Config).


(** The step of [main] on a frame: imputation with the default strategy. *)
Lemma transform_cacao (st : state) (raw : pd.DataFrame) :
  raw_data (self st) = Some raw →
  (transform etl_pipeline_script.cacao_transformations st).1 =
    match missing_values.impute_missing_values raw (Some ∅) (missing_values.Named "mean") with
    | Ok df => (Ok df, set_transformed_data st df)
    | Raise e => (Raise e, set_transformed_data st raw)
    end.
Proof.
  intros Hraw. unfold transform. rewrite Hraw.
  unfold etl_pipeline_script.cacao_transformations, transform_loop, pd.copy.
  unfold apply_transformation. cbn [function step step_params default].
  rewrite decide_True by done.
  change (check_keywords _ _ _) with (Ok ()).
  unfold mbind at 1, result_bind at 1. cbn [strategy default_strategy default].
  by destruct (missing_values.impute_missing_values raw _ _).
Qed.


(** X12. When the scraping gives the empty frame, or a frame with a duplicated
    label, [main] reports failure and the database is as before. *)
Theorem main_fails (pg : to_postgres.Postgres) :
  web_scraper.scrape_cacao_ratings web = pd.DataFrame_
  ∨ ¬ NoDup (pd.columns (web_scraper.scrape_cacao_ratings web)) →
  (etl_pipeline_script.main web cfg pg).1.1 = false
  ∧ postgres (etl_pipeline_script.main web cfg pg).1.2 = pg.
Proof.
  intros Hcase. unfold etl_pipeline_script.main.
  destruct Hcase as [Hempty | Hdup].
  - match goal with
    | |- context [run_pipeline web cfg ?a ?b ?c ?d ?s] =>
      destruct (etl_pipeline_facts.run_pipeline_empty web cfg a c b d s Hempty)
        as [Hres Hpg];
      destruct (run_pipeline web cfg a b c d s) as [[success st] l]
    end.
    simpl in *. by subst.
  - destruct (scrape_clean web) as [Hstr Hrect].
    unfold run_pipeline, extract. rewrite decide_True by done.
    cbn [default from_option id].
    match goal with
    | |- context [transform _ ?s] =>
      pose proof (transform_cacao s _ eq_refl) as Htr;
      destruct (transform etl_pipeline_script.cacao_transformations s) as [[r st2] l2]
    end.
    rewrite (scraped_frames.impute_clean_duplicate _ _ _ Hrect
               (scraped_frames.all_str_no_missing _ Hstr) Hdup) in Htr.
    simpl in Htr. injection Htr as Hr Hst2. by subst r st2.
Qed.

End runs.


Lemma main_fails_witness :
  (etl_pipeline_script.main (H := examples.bare_pandas) examples.unreachable
     config.defaults examples.server).1.1 = false
  ∧ etl_pipeline.postgres
      (etl_pipeline_script.main (H := examples.bare_pandas) examples.unreachable
         config.defaults examples.server).1.2 = examples.server.
Proof.
  apply (main_fails (H := examples.bare_pandas) examples.unreachable
           config.defaults examples.server).
  left. reflexivity.
Defined.

End end_to_end.

(** ** The transformation steps *)

Module transformation_steps.
Import statements.

Lemma getitem_unique (df : pd.DataFrame) (column : string) :
  NoDup (pd.columns df) → column ∈ pd.columns df →
  ∃ j, pd.columns df !! j = Some column
       ∧ pd.getitem df column = Ok (pd.OneColumn (pd.column_at df j)).
Proof.
  intros Hnodup Hin. unfold pd.getitem, pd.get_loc.
  destruct (missing_values_facts.positions_from_unique 0 column _ Hnodup Hin)
    as (j & Hj & ->).
  by exists j.
Qed.

Lemma select_mask_filter {A} (P : A → Prop) `{∀ x, Decision (P x)} (l : list A) :
  pd.select_mask ((λ x, bool_decide (P x)) <$> l) l = filter P l.
Proof.
  induction l as [|x l IH]; [done|]. csimpl.
  rewrite filter_cons, IH. by case_bool_decide; case_decide.
Qed.

Lemma get_loc_nonempty (df : pd.DataFrame) (label : string) :
  label ∈ pd.columns df ↔ pd.get_loc df label ≠ [].
Proof.
  split.
  - intros Hin Hnil. by apply missing_values_facts.positions_from_nil in Hnil.
  - intros Hne. destruct (decide (label ∈ pd.columns df)) as [|Hnotin]; [done|].
    destruct Hne. by apply missing_values_facts.positions_from_absent.
Qed.

Section steps.
Context `{pd.Library}.

(** What the loop of validate_data_types adds to the results it starts
    from. *)
Lemma validate_loop_spec (df : pd.DataFrame) (items : list (string * pd.pytype))
    (r0 r : validation.validation_results) :
  validation.validate_loop df items r0 = Ok r →
  ∃ new, validation.errors r = validation.errors r0 ++ new
    ∧ length new ≤ length items
    ∧ validation.valid r = validation.valid r0 && bool_decide (new = [])
    ∧ (∀ column ty, (column, ty) ∈ items → column ∉ pd.columns df →
         "Colonne manquante: " +:+ column ∈ new).
Proof.
  revert r0. induction items as [|[column ty] items IH]; intros r0 Hr.
  - simpl in Hr. injection Hr as <-. exists []. rewrite app_nil_r, andb_true_r.
    repeat split; try done. intros c t Hin. by apply elem_of_nil in Hin.
  - simpl in Hr.
    destruct (validation.validate_column df r0 column ty) as [r1|] eqn:Hstep; [|done].
    apply IH in Hr as (new & Herr & Hlen & Hvalid & Hmissing).
    unfold validation.validate_column in Hstep.
    case_decide as Hcol.
    + injection Hstep as <-. cbn in *.
      exists (("Colonne manquante: " +:+ column) :: new).
      rewrite Herr, <- app_assoc.
      split; [done|]. split; [simpl; lia|].
      split; [rewrite Hvalid, (bool_decide_eq_false_2 (_ :: new = [])) by done;
              by rewrite andb_false_r|].
      intros c t Hin Hc. apply elem_of_cons in Hin as [[= -> ->] | Hin]; [left|].
      right. by eapply Hmissing.
    + destruct (pd.getitem df column) as [[s|ss]|]; try done.
      unfold mbind, result_bind in Hstep.
      destruct (negb _); injection Hstep as <-; cbn in *.
      * eexists (_ :: new). rewrite Herr, <- app_assoc.
        split; [done|]. split; [simpl; lia|].
      split; [rewrite Hvalid, (bool_decide_eq_false_2 (_ :: new = [])) by done;
              by rewrite andb_false_r|].
        intros c t Hin Hc. apply elem_of_cons in Hin as [[= -> ->] | Hin]; [done|].
        right. by eapply Hmissing.
      * exists new. split; [done|]. split; [lia|]. split; [done|].
        intros c t Hin Hc. apply elem_of_cons in Hin as [[= -> ->] | Hin]; [done|].
        by eapply Hmissing.
Qed.

Lemma validate_loop_total (df : pd.DataFrame) (items : list (string * pd.pytype))
    (r0 : validation.validation_results) :
  NoDup (pd.columns df) → ∃ r, validation.validate_loop df items r0 = Ok r.
Proof.
  intros Hnodup. revert r0. induction items as [|[column ty] items IH]; intros r0.
  - by eexists.
  - simpl. unfold validation.validate_column. case_decide as Hcol.
    + apply IH.
    + destruct (getitem_unique df column Hnodup Hcol) as (j & _ & ->).
      unfold mbind, result_bind. destruct (negb _); apply IH.
Qed.

(** X14. [validate_data_types] returns a result on every frame with distinct
    labels. Whenever it returns, valid is True exactly when the list of
    errors is empty, there is at most one error per expected column, and
    every expected column that the frame lacks is reported as
    "Colonne manquante: " followed by its name. *)
Theorem validate_data_types_spec (df : pd.DataFrame)
    (expected_types : list (string * pd.pytype)) :
  (NoDup (pd.columns df) → ∃ r, validation.validate_data_types df expected_types = Ok r)
  ∧ (∀ r, validation.validate_data_types df expected_types = Ok r →
       (validation.valid r = true ↔ validation.errors r = [])
       ∧ length (validation.errors r) ≤ length expected_types
       ∧ (∀ column ty, (column, ty) ∈ expected_types → column ∉ pd.columns df →
            "Colonne manquante: " +:+ column ∈ validation.errors r)).
Proof.
  split; [intros Hnodup; by apply validate_loop_total|].
  intros r Hr. apply validate_loop_spec in Hr as (new & Herr & Hlen & Hvalid & Hmissing).
  simpl in *. subst. rewrite Hvalid. repeat split; try done.
  - by intros ?%bool_decide_eq_true.
  - intros ->. by apply bool_decide_eq_true.
Qed.

(** X15. A validate_data step with expected_types never stops the pipeline on
    a frame with distinct labels: whatever the validation finds, the step
    returns the frame as it received it. *)
Theorem validation_step_is_not_fatal (df : pd.DataFrame)
    (types : list (string * pd.pytype)) :
  NoDup (pd.columns df) →
  let t := etl_pipeline.step "validate_data"
             {| etl_pipeline.strategy := None; etl_pipeline.default_strategy := None;
                etl_pipeline.columns := None; etl_pipeline.drop_first := None;
                etl_pipeline.expected_types := Some types;
                etl_pipeline.date_column := None; etl_pipeline.other_keywords := [] |} in
  (etl_pipeline.apply_transformation df t).1 = Ok df.
Proof.
  intros Hnodup t. unfold etl_pipeline.apply_transformation.
  cbn [etl_pipeline.function etl_pipeline.step etl_pipeline.step_params default
       from_option id t].
  rewrite decide_False by done. rewrite decide_False by done.
  rewrite decide_True by done.
  change (etl_pipeline.check_keywords _ _ _) with (Ok ()).
  unfold mbind at 1, result_bind at 1. cbn [etl_pipeline.expected_types].
  destruct (validate_loop_total df types
              {| validation.valid := true; validation.errors := [];
                 validation.details := [] |} Hnodup) as [r Hr].
  unfold validation.validate_data_types. by rewrite Hr.
Qed.

Lemma encode_loop_absent (df acc : pd.DataFrame) (drop_first : bool)
    (cols : list string) :
  Forall (λ c, c ∉ pd.columns df) cols →
  encoding.encode_loop df drop_first cols acc = Ok acc.
Proof.
  induction 1 as [|column cols Hc Hcols IH]; [done|].
  simpl. unfold encoding.encode_column. rewrite decide_False by done. exact IH.
Qed.

(** X16. [one_hot_encode] returns the frame unchanged when none of the
    requested columns is a label of the frame. For one existing column whose
    dummies pandas can build, the result has the labels of the frame followed
    by those of the dummies, all occurrences of the encoded label removed,
    and as many records as the longer of the two. *)
Theorem one_hot_encode_columns (df : pd.DataFrame) (drop_first : bool) :
  (∀ cols, Forall (λ c, c ∉ pd.columns df) cols →
     encoding.one_hot_encode df (Some cols) drop_first = Ok df)
  ∧ (∀ column sel dummies,
       pd.getitem df column = Ok sel →
       pd.get_dummies sel column drop_first = Ok dummies →
       ∃ r, encoding.one_hot_encode df (Some [column]) drop_first = Ok r
         ∧ pd.columns r
           = filter (λ c, c ≠ column) (pd.columns df ++ pd.columns dummies)
         ∧ length (pd.values r)
           = length (pd.values df) `max` length (pd.values dummies)).
Proof.
  split.
  - intros cols Hcols. unfold encoding.one_hot_encode. by apply encode_loop_absent.
  - intros column sel dummies Hsel Hdummies.
    assert (column ∈ pd.columns df) as Hin.
    { apply get_loc_nonempty. intros Hnil. unfold pd.getitem in Hsel.
      by rewrite Hnil in Hsel. }
    unfold encoding.one_hot_encode, pd.copy. cbn [default from_option id].
    simpl. unfold encoding.encode_column. rewrite decide_True by done.
    rewrite Hsel. unfold mbind, result_bind. cbv beta iota. rewrite Hdummies.
    cbv beta iota. unfold pd.drop.
    destruct (pd.get_loc (pd.concat_columns df dummies) column) eqn:Hloc.
    { apply (get_loc_nonempty (pd.concat_columns df dummies) column) in Hloc; [done|].
      simpl. apply elem_of_app. by left. }
    cbv beta iota.
    eexists. split; [reflexivity|]. cbn [pd.columns pd.values pd.concat_columns].
    split.
    + apply (select_mask_filter (λ c, c ≠ column)).
    + by rewrite !length_fmap, length_seq.
Qed.
End steps.

Lemma validation_step_is_not_fatal_witness :
  (etl_pipeline.apply_transformation (H := examples.bare_pandas)
     examples_more.small_frame
     (etl_pipeline.step "validate_data"
        {| etl_pipeline.strategy := None; etl_pipeline.default_strategy := None;
           etl_pipeline.columns := None; etl_pipeline.drop_first := None;
           etl_pipeline.expected_types := Some [("A", pd.py_float)];
           etl_pipeline.date_column := None; etl_pipeline.other_keywords := [] |})).1
  = Ok examples_more.small_frame.
Proof.
  apply (validation_step_is_not_fatal (H := examples.bare_pandas)
           examples_more.small_frame [("A", pd.py_float)]).
  apply (bool_decide_unpack _). exact I.
Defined.

End transformation_steps.

(** ** The date features *)

Module date_features.

Lemma append_same (s t : string) : s +:+ t = s → t = "".
Proof.
  induction s as [|a s IH]; [done|]. simpl. intros [= Hs]. by apply IH.
Qed.

Lemma positions_from_app (i : nat) (label : string) (l1 l2 : list string) :
  pd.positions_from i label (l1 ++ l2)
  = pd.positions_from i label l1 ++ pd.positions_from (i + length l1) label l2.
Proof.
  revert i. induction l1 as [|c l1 IH]; intros i; simpl.
  - by rewrite Nat.add_0_r.
  - rewrite IH. replace (S i + length l1) with (i + S (length l1)) by lia.
    by case_decide.
Qed.

Lemma setitem_length (df : pd.DataFrame) (label : string) (s : pd.Series) :
  length (pd.values (pd.setitem df label s)) = length (pd.values df).
Proof.
  unfold pd.setitem. destruct (pd.get_loc df label); simpl; by rewrite length_imap.
Qed.

(** Assigning to a label keeps the columns, or appends the label when it
    is new; either way the positions of another label stay. *)
Lemma setitem_other (df : pd.DataFrame) (label other : string) (s : pd.Series) :
  other ≠ label →
  pd.columns df `prefix_of` pd.columns (pd.setitem df label s)
  ∧ label ∈ pd.columns (pd.setitem df label s)
  ∧ pd.get_loc (pd.setitem df label s) other = pd.get_loc df other.
Proof.
  intros Hne. unfold pd.setitem.
  destruct (pd.get_loc df label) as [|j js] eqn:Hloc; cbn [pd.columns].
  - split; [by apply prefix_app_r|]. split; [apply elem_of_app; right; left|].
    unfold pd.get_loc. cbn [pd.columns]. rewrite positions_from_app. simpl.
    rewrite decide_False by done. by rewrite app_nil_r.
  - split; [done|]. split; [|done].
    destruct (decide (label ∈ pd.columns df)) as [|Hnotin]; [done|].
    apply (missing_values_facts.positions_from_absent 0) in Hnotin.
    unfold pd.get_loc in Hloc. by rewrite Hnotin in Hloc.
Qed.

Section features.
Context `{pd.Library}.

Lemma add_feature_spec (d : pd.DataFrame) (date_column suffix : string)
    (f : pd.Series → pd.Series) (j : nat) :
  pd.get_loc d date_column = [j] → suffix ≠ "" →
  ∃ d', feature_engineering.add_feature d date_column suffix f = Ok d'
    ∧ pd.get_loc d' date_column = [j]
    ∧ length (pd.values d') = length (pd.values d)
    ∧ pd.columns d `prefix_of` pd.columns d'
    ∧ date_column +:+ suffix ∈ pd.columns d'.
Proof.
  intros Hloc Hsuffix. unfold feature_engineering.add_feature, pd.getitem.
  rewrite Hloc. unfold mbind, result_bind. cbn.
  eexists. split; [reflexivity|].
  assert (date_column ≠ date_column +:+ suffix) as Hne
    by (intros Heq; symmetry in Heq; by apply append_same in Heq).
  destruct (setitem_other d (date_column +:+ suffix) date_column
              (f (pd.column_at d j)) Hne) as (Hprefix & Hin & Hpos).
  rewrite Hpos, setitem_length. done.
Qed.

(** X17. [create_date_features] returns the frame unchanged when the date
    column is not a label of it. When the label occurs once and pandas can
    parse the column, the result has the same number of records, the labels
    of the frame come first in their order, and the six labels made of the
    date column and _year, _month, _day, _dayofweek, _quarter, _is_weekend are
    present. *)
Theorem create_date_features_spec (df : pd.DataFrame) (date_column : string) :
  (date_column ∉ pd.columns df →
     feature_engineering.create_date_features df date_column = Ok df)
  ∧ (∀ j parsed,
       pd.get_loc df date_column = [j] →
       pd.to_datetime (pd.OneColumn (pd.column_at df j)) = Ok parsed →
       ∃ r, feature_engineering.create_date_features df date_column = Ok r
         ∧ length (pd.values r) = length (pd.values df)
         ∧ pd.columns df `prefix_of` pd.columns r
         ∧ Forall (λ suffix, date_column +:+ suffix ∈ pd.columns r)
             ["_year"; "_month"; "_day"; "_dayofweek"; "_quarter"; "_is_weekend"]).
Proof.
  split.
  - intros Hnotin. unfold feature_engineering.create_date_features.
    by rewrite decide_False.
  - intros j parsed Hloc Hparsed.
    assert (date_column ∈ pd.columns df) as Hin.
    { apply transformation_steps.get_loc_nonempty. by rewrite Hloc. }
    unfold feature_engineering.create_date_features, pd.copy.
    rewrite decide_True by done. unfold pd.getitem at 1. rewrite Hloc.
    unfold mbind at 1, result_bind at 1. rewrite Hparsed.
    unfold mbind at 1, result_bind at 1.
    set (d0 := pd.setitem df date_column parsed).
    assert (pd.get_loc d0 date_column = [j]
            ∧ length (pd.values d0) = length (pd.values df)
            ∧ pd.columns d0 = pd.columns df) as (Hloc0 & Hlen0 & Hcols0).
    { unfold d0. rewrite setitem_length.
      assert (pd.columns (pd.setitem df date_column parsed) = pd.columns df) as Hc
        by (by apply missing_values_facts.setitem_columns).
      unfold pd.get_loc. by rewrite Hc. }
    destruct (add_feature_spec d0 date_column "_year" pd.dt_year j Hloc0)
      as (d1 & -> & Hloc1 & Hlen1 & Hpre1 & Hin1); [done|].
    unfold mbind at 1, result_bind at 1.
    destruct (add_feature_spec d1 date_column "_month" pd.dt_month j Hloc1)
      as (d2 & -> & Hloc2 & Hlen2 & Hpre2 & Hin2); [done|].
    unfold mbind at 1, result_bind at 1.
    destruct (add_feature_spec d2 date_column "_day" pd.dt_day j Hloc2)
      as (d3 & -> & Hloc3 & Hlen3 & Hpre3 & Hin3); [done|].
    unfold mbind at 1, result_bind at 1.
    destruct (add_feature_spec d3 date_column "_dayofweek" pd.dt_dayofweek j Hloc3)
      as (d4 & -> & Hloc4 & Hlen4 & Hpre4 & Hin4); [done|].
    unfold mbind at 1, result_bind at 1.
    destruct (add_feature_spec d4 date_column "_quarter" pd.dt_quarter j Hloc4)
      as (d5 & -> & Hloc5 & Hlen5 & Hpre5 & Hin5); [done|].
    unfold mbind at 1, result_bind at 1.
    destruct (add_feature_spec d5 date_column "_is_weekend"
                (feature_engineering.isin_5_6 ∘ pd.dt_dayofweek) j Hloc5)
      as (d6 & -> & Hloc6 & Hlen6 & Hpre6 & Hin6); [done|].
    exists d6. split; [done|]. split; [congruence|].
    assert (∀ l1 l2 (x : string), x ∈ l1 → l1 `prefix_of` l2 → x ∈ l2) as Hmono.
    { intros l1 l2 x Hx [k ->]. apply elem_of_app. by left. }
    split.
    + rewrite <- Hcols0. by do 5 (etrans; [eassumption|]).
    + repeat (apply Forall_cons; split); [..|apply Forall_nil]; eauto 10.
Qed.
End features.
End date_features.

(** ** Imputation: shape and constant strategy *)

Module imputation.
Import missing_values missing_values_facts.

Lemma setitem_values_length (df : pd.DataFrame) (label : string) (s : pd.Series) :
  length (pd.values (pd.setitem df label s)) = length (pd.values df).
Proof.
  unfold pd.setitem. destruct (pd.get_loc df label); simpl; by rewrite length_imap.
Qed.

Lemma foldr_insert_length {A} (js : list nat) (x : A) (l : list A) :
  length (foldr (λ j l', <[j := x]> l') l js) = length l.
Proof. induction js as [|j js IH]; [done|]. simpl. by rewrite length_insert. Qed.

Lemma setitem_rectangular (df : pd.DataFrame) (label : string) (s : pd.Series) :
  label ∈ pd.columns df → pd.rectangular df → pd.rectangular (pd.setitem df label s).
Proof.
  intros Hin Hrect. unfold pd.rectangular. rewrite setitem_columns by done.
  unfold pd.setitem. destruct (pd.get_loc df label) as [|j js] eqn:Hloc.
  { apply positions_from_nil in Hloc. done. }
  cbn [pd.values]. apply Forall_forall. intros r Hr.
  apply list_elem_of_lookup in Hr as [i Hi].
  rewrite list_lookup_imap in Hi.
  destruct (pd.values df !! i) as [r0|] eqn:Hr0; [|done]. simpl in Hi.
  injection Hi as <-. rewrite length_insert, foldr_insert_length.
  eapply (proj1 (Forall_forall _ _) Hrect). by eapply list_elem_of_lookup_2.
Qed.

Section shape.
Context `{pd.Library}.

Lemma impute_loop_shape (df df_imputed r : pd.DataFrame)
    (strategy : gmap string col_strategy) (default_strategy : col_strategy)
    (cols : list string) :
  impute_loop df strategy default_strategy cols df_imputed = Ok r →
  cols ⊆ pd.columns df → pd.columns df_imputed = pd.columns df →
  length (pd.values r) = length (pd.values df_imputed)
  ∧ (pd.rectangular df_imputed → pd.rectangular r).
Proof.
  revert df_imputed. induction cols as [|column cols IH]; intros df_imputed Hr Hsub Hcols.
  - simpl in Hr. by injection Hr as <-.
  - simpl in Hr.
    destruct (impute_column df df_imputed strategy default_strategy column)
      as [df1|] eqn:Hstep; [|done].
    apply impute_column_returns in Hstep as [_ Hdf1].
    assert (column ∈ pd.columns df_imputed) as Hin by (rewrite Hcols; apply Hsub; left).
    assert (pd.columns df1 = pd.columns df) as Hcols1.
    { destruct Hdf1 as [-> | [s ->]]; [done|]. by rewrite setitem_columns. }
    destruct (IH df1 Hr) as [Hlen Hrect]; [intros c Hc; apply Hsub; by right | done |].
    destruct Hdf1 as [-> | [s ->]]; [done|].
    rewrite Hlen, setitem_values_length. split; [done|].
    intros Hrect0. by apply Hrect, setitem_rectangular.
Qed.

(** X18. Whenever [impute_missing_values] returns, the result has the labels
    and the shape of its argument, the labels of the argument are distinct
    (on a duplicated label it always raises), and if every record of the
    argument has one cell per label, so has every record of the result. *)
Theorem impute_keeps_shape (df r : pd.DataFrame)
    (strategy : option (gmap string col_strategy)) (default_strategy : col_strategy) :
  impute_missing_values df strategy default_strategy = Ok r →
  pd.columns r = pd.columns df
  ∧ pd.shape r = pd.shape df
  ∧ NoDup (pd.columns df)
  ∧ (pd.rectangular df → pd.rectangular r).
Proof.
  intros Hr. unfold impute_missing_values in Hr.
  destruct (impute_loop_returns _ _ _ _ _ _ Hr) as [Hsingle Hcols]; [done..|].
  destruct (impute_loop_shape _ _ _ _ _ _ Hr) as [Hlen Hrect]; [done..|].
  split; [done|]. split; [unfold pd.shape; by rewrite Hlen, Hcols|].
  split; [by apply (single_positions_NoDup 0)|done].
Qed.
End shape.

Lemma impute_keeps_shape_witness :
  pd.columns examples_more.zero_filled_frame = pd.columns examples_more.gappy_frame
  ∧ pd.shape examples_more.zero_filled_frame = pd.shape examples_more.gappy_frame
  ∧ NoDup (pd.columns examples_more.gappy_frame)
  ∧ (pd.rectangular examples_more.gappy_frame → pd.rectangular examples_more.zero_filled_frame).
Proof.
  apply (impute_keeps_shape (H := examples.bare_pandas) examples_more.gappy_frame
           examples_more.zero_filled_frame None (missing_values.Constant (0 # 1)%Q)).
  reflexivity.
Defined.

End imputation.

Module constant_imputation.
Import missing_values missing_values_facts statements.





Section constant.
Context `{pd.Library}.



End constant.


End constant_imputation.

(** ** The column types of the table *)

Module sql_types.
Import to_postgres_schema statements.

Lemma foldl_min (q : Q) (qs : list Q) :
  let m := foldl (λ m x, if Qle_bool x m then x else m) q qs in
  m ∈ q :: qs ∧ Forall (Qle m) (q :: qs).
Proof.
  revert q. induction qs as [|x qs IH]; intros q; simpl.
  - split; [left|]. constructor; [apply Qle_refl|constructor].
  - destruct (IH (if Qle_bool x q then x else q)) as [Hin Hall].
    apply Forall_cons in Hall as [Hhd Hall].
    destruct (Qle_bool x q) eqn:Hle.
    + apply Qle_bool_iff in Hle. split.
      * apply elem_of_cons in Hin as [-> | Hin];
          [apply list_elem_of_further, list_elem_of_here | by do 2 apply list_elem_of_further].
      * constructor; [by eapply Qle_trans|]. by constructor.
    + assert (Qle q x) as Hqx.
      { apply Qlt_le_weak, Qnot_le_lt. intros Hxq. apply Qle_bool_iff in Hxq. congruence. }
      split.
      * apply elem_of_cons in Hin as [-> | Hin];
          [apply list_elem_of_here | by do 2 apply list_elem_of_further].
      * constructor; [done|]. constructor; [by eapply Qle_trans|done].
Qed.

Lemma foldl_max (q : Q) (qs : list Q) :
  let m := foldl (λ m x, if Qle_bool m x then x else m) q qs in
  m ∈ q :: qs ∧ Forall (λ x, Qle x m) (q :: qs).
Proof.
  revert q. induction qs as [|x qs IH]; intros q; simpl.
  - split; [left|]. constructor; [apply Qle_refl|constructor].
  - destruct (IH (if Qle_bool q x then x else q)) as [Hin Hall].
    apply Forall_cons in Hall as [Hhd Hall].
    destruct (Qle_bool q x) eqn:Hle.
    + apply Qle_bool_iff in Hle. split.
      * apply elem_of_cons in Hin as [-> | Hin];
          [apply list_elem_of_further, list_elem_of_here | by do 2 apply list_elem_of_further].
      * constructor; [by eapply Qle_trans|]. by constructor.
    + assert (Qle x q) as Hqx.
      { apply Qlt_le_weak, Qnot_le_lt. intros Hxq. apply Qle_bool_iff in Hxq. congruence. }
      split.
      * apply elem_of_cons in Hin as [-> | Hin];
          [apply list_elem_of_here | by do 2 apply list_elem_of_further].
      * constructor; [done|]. constructor; [by eapply Qle_trans|done].
Qed.

Lemma ge_bound_min (s : pd.Series) (bound : Z) :
  ge_bound (series_min s) bound = true
  ↔ numbers s ≠ [] ∧ Forall (Qle (inject_Z bound)) (numbers s).
Proof.
  unfold series_min. destruct (numbers s) as [|q qs]; simpl.
  { split; [done | by intros [? _]]. }
  destruct (foldl_min q qs) as [Hin Hall]. simpl in Hin, Hall.
  rewrite Qle_bool_iff. split.
  - intros Hle. split; [done|]. eapply Forall_impl; [exact Hall|].
    intros x Hx. simpl in Hx. by eapply Qle_trans.
  - intros [_ Hbound]. by apply (proj1 (Forall_forall _ _) Hbound).
Qed.

Lemma le_bound_max (s : pd.Series) (bound : Z) :
  le_bound (series_max s) bound = true
  ↔ numbers s ≠ [] ∧ Forall (λ q, Qle q (inject_Z bound)) (numbers s).
Proof.
  unfold series_max. destruct (numbers s) as [|q qs]; simpl.
  { split; [done | by intros [? _]]. }
  destruct (foldl_max q qs) as [Hin Hall]. simpl in Hin, Hall.
  rewrite Qle_bool_iff. split.
  - intros Hle. split; [done|]. eapply Forall_impl; [exact Hall|].
    intros x Hx. simpl in Hx. by eapply Qle_trans.
  - intros [_ Hbound]. by apply (proj1 (Forall_forall _ _) Hbound).
Qed.

Lemma range_check (s : pd.Series) (lo hi : Z) :
  ge_bound (series_min s) lo && le_bound (series_max s) hi = true ↔ within lo hi s.
Proof.
  rewrite andb_true_iff, ge_bound_min, le_bound_max. unfold within.
  rewrite Forall_and. tauto.
Qed.

Lemma within_wider (s : pd.Series) (lo hi lo' hi' : Z) :
  (lo' ≤ lo)%Z → (hi ≤ hi')%Z → within lo hi s → within lo' hi' s.
Proof.
  intros Hlo Hhi [Hne Hall]. split; [done|].
  eapply Forall_impl; [exact Hall|]. intros q [Hq1 Hq2]. split.
  - eapply Qle_trans; [|exact Hq1]. by rewrite <- Zle_Qle.
  - eapply Qle_trans; [exact Hq2|]. by rewrite <- Zle_Qle.
Qed.


Section types.
Variable str_number : Q → string.

(** X21. For an integer column [_get_sql_dtypes] chooses SMALLINT exactly when
    the column has a value and all its values lie in -32768..32767; INTEGER
    exactly when they all lie in -2147483648..2147483647 but not all in
    -32768..32767; BIGINT otherwise, in particular for a column without
    values. *)
Theorem integer_type_spec (s : pd.Series) :
  pd.s_dtype s = pd.int64 →
  (sql_type str_number s = "SMALLINT" ↔ within (-32768) 32767 s)
  ∧ (sql_type str_number s = "INTEGER"
     ↔ within (-2147483648) 2147483647 s ∧ ¬ within (-32768) 32767 s)
  ∧ (sql_type str_number s = "BIGINT" ↔ ¬ within (-2147483648) 2147483647 s).
Proof.
  intros Hdtype. unfold sql_type. rewrite Hdtype.
  pose proof (range_check s (-32768) 32767) as H16.
  pose proof (range_check s (-2147483648) 2147483647) as H32.
  pose proof (within_wider s (-32768) 32767 (-2147483648) 2147483647) as Hwider.
  destruct (ge_bound (series_min s) (-32768) && le_bound (series_max s) 32767);
    destruct (ge_bound (series_min s) (-2147483648)
              && le_bound (series_max s) 2147483647).
  - assert (within (-32768) 32767 s) by (by apply H16).
    assert (within (-2147483648) 2147483647 s) by (by apply H32).
    split; [done|]. split; (split; [done | tauto]).
  - assert (within (-32768) 32767 s) as H16' by (by apply H16).
    assert (within (-2147483648) 2147483647 s) by (apply Hwider; [lia|lia|done]).
    split; [done|]. split; (split; [done | tauto]).
  - assert (¬ within (-32768) 32767 s) by (intros Hw; by apply H16 in Hw).
    assert (within (-2147483648) 2147483647 s) by (by apply H32).
    split; [split; [done | tauto]|]. split; [done|]. split; [done | tauto].
  - assert (¬ within (-32768) 32767 s) by (intros Hw; by apply H16 in Hw).
    assert (¬ within (-2147483648) 2147483647 s) by (intros Hw; by apply H32 in Hw).
    split; [split; [done | tauto]|]. split; [split; [done | tauto]|]. done.
Qed.


Lemma sql_dtypes_loop_outcomes (df : pd.DataFrame) (cols : list string)
    (acc : gmap string string) :
  cols ⊆ pd.columns df →
  (∃ m, sql_dtypes_loop str_number df cols acc = Ok m
        ∧ ∀ c, c ∈ cols → ∃ j, pd.get_loc df c = [j])
  ∨ sql_dtypes_loop str_number df cols acc
    = Raise (AttributeError "'DataFrame' object has no attribute 'dtype'").
Proof.
  revert acc. induction cols as [|c cols IH]; intros acc Hsub.
  - left. exists acc. split; [done|]. intros c Hc. by apply elem_of_nil in Hc.
  - assert (c ∈ pd.columns df) as Hc by (apply Hsub; left).
    assert (cols ⊆ pd.columns df) as Hsub' by (intros x Hx; apply Hsub; by right).
    simpl. unfold pd.getitem.
    destruct (pd.get_loc df c) as [|j [|j' js]] eqn:Hloc.
    + by apply transformation_steps.get_loc_nonempty in Hc.
    + unfold mbind, result_bind. cbv beta iota.
      destruct (IH (<[c := sql_type str_number (pd.column_at df j)]> acc) Hsub')
        as [(m & Hm & Hone) | Hraise]; [left | by right].
      exists m. split; [done|]. intros c' Hc'.
      apply elem_of_cons in Hc' as [-> | Hc']; [by exists j | by apply Hone].
    + by right.
Qed.

Lemma sql_dtypes_loop_ok (df : pd.DataFrame) (cols : list string)
    (acc m : gmap string string) :
  NoDup (pd.columns df) →
  sql_dtypes_loop str_number df cols acc = Ok m →
  (∀ j c, pd.columns df !! j = Some c → c ∈ cols →
          m !! c = Some (sql_type str_number (pd.column_at df j)))
  ∧ (∀ c, c ∉ cols → m !! c = acc !! c).
Proof.
  intros Hnodup. revert acc. induction cols as [|c cols IH]; intros acc Hloop.
  - injection Hloop as <-. split; [|done]. intros j c _ Hc. by apply elem_of_nil in Hc.
  - simpl in Hloop. unfold pd.getitem in Hloop.
    destruct (pd.get_loc df c) as [|j0 [|j' js]] eqn:Hloc; [done| |done].
    unfold mbind, result_bind in Hloop. cbv beta iota in Hloop.
    apply IH in Hloop as [Hin Hout]. split.
    + intros j c' Hj Hc'. destruct (decide (c' ∈ cols)) as [|Hnotin]; [by apply Hin|].
      apply elem_of_cons in Hc' as [-> | Hc']; [|done].
      rewrite Hout, lookup_insert_eq by done. do 2 f_equal.
      assert (pd.get_loc df c = [j]) as Hloc'.
      { unfold pd.get_loc.
        destruct (missing_values_facts.positions_from_unique 0 c _ Hnodup)
          as (j1 & Hj1 & ->); [by eapply list_elem_of_lookup_2|].
        by rewrite (NoDup_lookup _ _ _ _ Hnodup Hj1 Hj). }
      congruence.
    + intros c' Hc'. apply not_elem_of_cons in Hc' as [Hne Hc'].
      by rewrite Hout, lookup_insert_ne.
Qed.

(** X20. [_get_sql_dtypes] on a frame with distinct labels returns a mapping
    with one entry per label, the type chosen for that column, and nothing
    else; on a frame with a duplicated label it raises AttributeError, since
    df[column] is then a DataFrame and has no dtype. *)
Theorem get_sql_dtypes_outcomes (df : pd.DataFrame) :
  (NoDup (pd.columns df)
   ∧ ∃ m, _get_sql_dtypes str_number df = Ok m
          ∧ (∀ j c, pd.columns df !! j = Some c →
                    m !! c = Some (sql_type str_number (pd.column_at df j)))
          ∧ (∀ c, c ∉ pd.columns df → m !! c = None))
  ∨ (¬ NoDup (pd.columns df)
     ∧ _get_sql_dtypes str_number df
       = Raise (AttributeError "'DataFrame' object has no attribute 'dtype'")).
Proof.
  unfold _get_sql_dtypes.
  destruct (sql_dtypes_loop_outcomes df (pd.columns df) ∅) as [(m & Hm & Hone) | Hraise];
    [done| |].
  - assert (NoDup (pd.columns df)) as Hnodup.
    { apply (missing_values_facts.single_positions_NoDup 0). intros c Hc.
      by apply Hone. }
    left. split; [done|]. exists m. split; [done|].
    destruct (sql_dtypes_loop_ok df (pd.columns df) ∅ m Hnodup Hm) as [Hin Hout].
    split.
    + intros j c Hj. apply Hin; [done|]. by eapply list_elem_of_lookup_2.
    + intros c Hc. by rewrite Hout, lookup_empty.
  - right. split; [|done]. intros Hnodup.
    assert (∀ cols acc, cols ⊆ pd.columns df →
              ∃ m, sql_dtypes_loop str_number df cols acc = Ok m) as Hok.
    { induction cols as [|c cols IH]; intros acc Hsub; [by exists acc|].
      simpl.
      destruct (transformation_steps.getitem_unique df c Hnodup) as (j & _ & ->);
        [apply Hsub; left|].
      unfold mbind, result_bind. cbv beta iota. apply IH.
      intros x Hx. apply Hsub. by right. }
    destruct (Hok (pd.columns df) ∅) as [m Hm]; [done|]. congruence.
Qed.
End types.

Lemma integer_type_spec_witness :
  (to_postgres_schema.sql_type (λ _, "0") examples_more.int_series = "SMALLINT"
   ↔ statements.within (-32768) 32767 examples_more.int_series)
  ∧ (to_postgres_schema.sql_type (λ _, "0") examples_more.int_series = "INTEGER"
     ↔ statements.within (-2147483648) 2147483647 examples_more.int_series
       ∧ ¬ statements.within (-32768) 32767 examples_more.int_series)
  ∧ (to_postgres_schema.sql_type (λ _, "0") examples_more.int_series = "BIGINT"
     ↔ ¬ statements.within (-2147483648) 2147483647 examples_more.int_series).
Proof.
  apply (integer_type_spec (λ _, "0") examples_more.int_series). reflexivity.
Defined.


End sql_types.

(** ** Dropping records and columns *)

Module dropping.
Import missing_values_drop.

Lemma filter_filter_same {A} (P : A → Prop) `{∀ x, Decision (P x)} (l : list A) :
  filter P (filter P l) = filter P l.
Proof.
  induction l as [|x l IH]; [done|]. rewrite filter_cons.
  case_decide as HP; [|done]. rewrite filter_cons, decide_True by done. by f_equal.
Qed.

Lemma notna_count_complete (row : list pd.cell) :
  Forall (λ c, pd.isnull c = false) row → notna_count row = Z.of_nat (length row).
Proof.
  intros Hall. unfold notna_count. do 2 f_equal.
  induction Hall as [|c row Hc Hall IH]; [done|].
  rewrite filter_cons, decide_True by done. simpl. by f_equal.
Qed.

Lemma select_mask_sublist {A} (mask : list bool) (l : list A) :
  sublist (pd.select_mask mask l) l.
Proof.
  revert l. induction mask as [|b mask IH]; intros [|x l]; simpl;
    try apply sublist_nil_l.
  destruct b; [by apply sublist_skip | by apply sublist_cons].
Qed.

Lemma select_mask_length {A B} (mask : list bool) (l : list A) (k : list B) :
  length l = length k →
  length (pd.select_mask mask l) = length (pd.select_mask mask k).
Proof.
  revert l k. induction mask as [|b mask IH]; intros [|x l] [|y k] Hlen; simpl;
    try done.
  injection Hlen as Hlen. destruct b; simpl; [f_equal|]; by apply IH.
Qed.

(** X23. [drop_missing_values] with axis 0 keeps the labels, keeps exactly the
    records whose number of present cells is at least the threshold count
    (int(threshold * number of columns)), in their order, and applying it
    again with the same threshold changes nothing. *)
Theorem drop_rows_spec (df : pd.DataFrame) (threshold_count : nat → Z) :
  let r := drop_missing_values df threshold_count 0 in
  pd.columns r = pd.columns df
  ∧ sublist (pd.values r) (pd.values df)
  ∧ (∀ row, row ∈ pd.values r
            ↔ row ∈ pd.values df
              ∧ (threshold_count (length (pd.columns df)) ≤ notna_count row)%Z)
  ∧ drop_missing_values r threshold_count 0 = r.
Proof.
  unfold drop_missing_values. rewrite !decide_True by done.
  unfold dropna_rows. cbn [pd.columns pd.values pd.dtypes pd.shape snd].
  split; [done|]. split; [apply sublist_filter|]. split.
  - intros row. by rewrite list_elem_of_filter, (comm and).
  - f_equal. apply filter_filter_same.
Qed.

(** X24. When the threshold count is at most the number of columns (as for a
    threshold of at most 1) and every record has one cell per label,
    [drop_missing_values] with axis 0 keeps every record without a missing
    cell. *)
Theorem complete_rows_survive (df : pd.DataFrame) (threshold_count : nat → Z)
    (row : list pd.cell) :
  pd.rectangular df →
  (threshold_count (length (pd.columns df)) ≤ Z.of_nat (length (pd.columns df)))%Z →
  row ∈ pd.values df → Forall (λ c, pd.isnull c = false) row →
  row ∈ pd.values (drop_missing_values df threshold_count 0).
Proof.
  intros Hrect Hle Hrow Hcomplete. unfold drop_missing_values.
  rewrite decide_True by done. unfold dropna_rows. cbn [pd.values pd.shape snd].
  apply list_elem_of_filter. split; [|done].
  rewrite notna_count_complete by done.
  by rewrite (proj1 (Forall_forall _ _) Hrect row Hrow).
Qed.

(** X25. [drop_missing_values] with an axis other than 0 drops columns only:
    the result has as many records as the argument, its labels are labels of
    the argument in the same order, and if every record of the argument has
    one cell per label, so has every record of the result. *)
Theorem drop_columns_spec (df : pd.DataFrame) (threshold_count : nat → Z) (axis : Z) :
  axis ≠ 0%Z → pd.rectangular df →
  let r := drop_missing_values df threshold_count axis in
  pd.rectangular r
  ∧ sublist (pd.columns r) (pd.columns df)
  ∧ length (pd.values r) = length (pd.values df).
Proof.
  intros Haxis Hrect. unfold drop_missing_values. rewrite decide_False by done.
  unfold dropna_columns. cbv zeta. cbn [pd.columns pd.values].
  split; [|split; [apply select_mask_sublist | by rewrite length_fmap]].
  unfold pd.rectangular. cbn [pd.columns pd.values].
  apply Forall_fmap. eapply Forall_impl; [exact Hrect|].
  intros row Hlen. simpl in *. by apply select_mask_length.
Qed.

Lemma complete_rows_survive_witness :
  [pd.Num (3 # 1)%Q; pd.Str "Peru"]
  ∈ pd.values
      (missing_values_drop.drop_missing_values examples_more.gappy_frame
         examples_more.half 0).
Proof.
  apply (complete_rows_survive examples_more.gappy_frame examples_more.half).
  - repeat constructor.
  - vm_compute. discriminate.
  - apply list_elem_of_here.
  - repeat constructor.
Defined.

Lemma drop_columns_spec_witness :
  let r :=
    missing_values_drop.drop_missing_values examples_more.gappy_frame
      examples_more.half 1 in
  pd.rectangular r
  ∧ sublist (pd.columns r) (pd.columns examples_more.gappy_frame)
  ∧ length (pd.values r) = length (pd.values examples_more.gappy_frame).
Proof.
  apply (drop_columns_spec examples_more.gappy_frame examples_more.half 1).
  - discriminate.
  - repeat constructor.
Defined.

End dropping.
